(** * Ancient Language Researcher Backend: context lifecycle and routing

    A shallow embedding of [src/main.py].  The two module-level
    collections ([users], [user_contexts]) form the server state; every
    endpoint is a handler in a small state-and-exception monad whose
    computations may contact the two outside collaborators (the PDF
    extraction library and the RAG server).

    A Python [str] is modelled by the [string] of its UTF-8 bytes (all
    literals of this file are written that way).  Equality, concatenation
    and suffix tests on the bytes are those of the characters; [len] and
    slices count characters, not bytes (see [Str.len], [Str.slice_to] and
    the encoder [Str.utf8] that relates them to code points). *)

From Stdlib Require Import String Ascii ZArith NArith Bool Lia.
From stdpp Require Import gmap strings list fin_maps.

Local Open Scope Z_scope.

(** ** Python string helpers *)

Module Str.

(** [str.lower()] as far as the extension check needs it: the letters
    A..Z move to a..z and every other byte stays as it is.  (Letters
    outside ASCII, which [str.lower()] also folds, are left alone; none of
    them folds to one of the characters of [".pdf"].) *)
Definition lower_char (c : ascii) : ascii :=
  let n := nat_of_ascii c in
  if ((65 <=? n) && (n <=? 90))%nat then ascii_of_nat (n + 32) else c.

Fixpoint lower (s : string) : string :=
  match s with
  | EmptyString => EmptyString
  | String c s' => String (lower_char c) (lower s')
  end.

(** [s.endswith(suffix)]: some tail of [s] is [suffix]. *)
Fixpoint endswith (s suffix : string) : bool :=
  if String.eqb s suffix then true
  else match s with
       | EmptyString => false
       | String _ s' => endswith s' suffix
       end.

(** A byte [10xxxxxx] continues a character that started earlier; every
    other byte starts a character. *)
Definition is_continuation (c : ascii) : bool :=
  ((128 <=? N_of_ascii c) && (N_of_ascii c <? 192))%N.

(** Number of characters: the bytes that start one. *)
Fixpoint chars (s : string) : nat :=
  match s with
  | EmptyString => 0%nat
  | String c s' => ((if is_continuation c then 0 else 1) + chars s')%nat
  end.

(** [s[:n]]: the bytes of the first [n] characters. *)
Fixpoint slice_to (n : nat) (s : string) : string :=
  match s with
  | EmptyString => EmptyString
  | String c s' =>
      if is_continuation c then String c (slice_to n s')
      else match n with
           | O => EmptyString
           | S n' => String c (slice_to n' s')
           end
  end.

(** [len(s)] *)
Definition len (s : string) : Z := Z.of_nat (chars s).

(** [s.encode("latin-1")] succeeds: every character is below U+0100,
    that is, no byte is [0xC4] or more. *)
Fixpoint latin1 (s : string) : bool :=
  match s with
  | EmptyString => true
  | String c s' => (N_of_ascii c <? 196)%N && latin1 s'
  end.

(** UTF-8 bytes of one code point, and of a sequence of code points. *)
Definition utf8_char (n : N) : string :=
  (if n <? 128 then String (ascii_of_N n) EmptyString
   else if n <? 2048 then
     String (ascii_of_N (192 + n / 64))
       (String (ascii_of_N (128 + n mod 64)) EmptyString)
   else if n <? 65536 then
     String (ascii_of_N (224 + n / 4096))
       (String (ascii_of_N (128 + (n / 64) mod 64))
          (String (ascii_of_N (128 + n mod 64)) EmptyString))
   else
     String (ascii_of_N (240 + (n / 262144) mod 8))
       (String (ascii_of_N (128 + (n / 4096) mod 64))
          (String (ascii_of_N (128 + (n / 64) mod 64))
             (String (ascii_of_N (128 + n mod 64)) EmptyString))))%N.

Fixpoint utf8 (cs : list N) : string :=
  match cs with
  | nil => EmptyString
  | cons c cs' => String.append (utf8_char c) (utf8 cs')
  end.

(** Truth value of an optional string: [None] and [""] are falsy. *)
Definition truthy (o : option string) : bool :=
  match o with
  | Some (String _ _) => true
  | _ => false
  end.

End Str.

(** ** Data model *)

(** Pydantic models. *)
Module User.
Record t := mk { username : string; password : string }.
End User.

Module QueryRequest.
Record t := mk { query : string }.
End QueryRequest.

(** The part of a FastAPI [Request] the handlers read. *)
Module Request.
Record t := mk { cookies : gmap string string }.
End Request.

(** The part of an [UploadFile] the handlers read: the client's file name
    (possibly absent) and the bytes returned by [await file.read()]. *)
Module UploadFile.
Record t := mk { filename : option string; read : list Byte.byte }.
End UploadFile.

(** JSON values: response bodies and the payloads exchanged with the RAG
    server. *)
#[local] Unset Elimination Schemes.
Inductive json : Type :=
| JNull
| JBool (b : bool)
| JInt (n : Z)
| JStr (s : string)
| JList (l : list json)
| JDict (d : list (string * json)).
#[local] Set Elimination Schemes.

Record HTTPException := { status_code : Z; detail : string }.

(** Exceptions that no handler catches. *)
Inductive exception :=
| UnicodeEncodeError.

(** What a handler tells the transport layer to do with the cookie. *)
Inductive cookie_action :=
| set_cookie (key value : string)
| delete_cookie (key : string).

(** In-memory stores: the list [users] and the dict [user_contexts]. *)
Record state := { users : list User.t; user_contexts : gmap string string }.

Definition initial : state := {| users := []; user_contexts := ∅ |}.

Definition RAG_SERVER_URL : string := "http://localhost:8001".

(** ** Outside collaborators *)

(** Result of a call guarded by [try ... except]: the value, or [str(e)]
    of the exception that the [except] clause catches. *)
Inductive attempt (A : Type) :=
| Value (a : A)
| Caught (str_e : string).
Arguments Value {A} a.
Arguments Caught {A} str_e.

(** A computation that may call the collaborators.  [Markdown] is
    [pymupdf.open(stream=..., filetype="pdf")] followed by
    [pymupdf4llm.to_markdown]; [Post] is [requests.post(url, json=...,
    timeout=...)] followed by [raise_for_status()] and [json()]; there
    [Caught] carries [str(e)] of the [RequestException] (connection
    failure, timeout, error status, undecodable body). *)
Inductive io (A : Type) : Type :=
| Ret (a : A)
| Markdown (pdf_bytes : list Byte.byte) (k : attempt string → io A)
| Post (url : string) (payload : json) (timeout : Z) (k : attempt json → io A).
Arguments Ret {A} a.
Arguments Markdown {A} pdf_bytes k.
Arguments Post {A} url payload timeout k.

Fixpoint io_bind {A B} (m : io A) (f : A → io B) : io B :=
  match m with
  | Ret a => f a
  | Markdown b k => Markdown b (λ r, io_bind (k r) f)
  | Post u p t k => Post u p t (λ r, io_bind (k r) f)
  end.

(** ** Handler monad: state, exceptions and collaborator calls *)

Inductive outcome (A : Type) :=
| Returned (a : A)
| Raised (e : HTTPException)
| Unhandled (x : exception).
Arguments Returned {A} a.
Arguments Raised {A} e.
Arguments Unhandled {A} x.

Definition handler (A : Type) : Type := state → io (outcome A * state).

Definition ret {A} (a : A) : handler A := λ s, Ret (Returned a, s).

Definition raise {A} (e : HTTPException) : handler A := λ s, Ret (Raised e, s).

Definition unhandled {A} (x : exception) : handler A :=
  λ s, Ret (Unhandled x, s).

Definition bind {A B} (m : handler A) (f : A → handler B) : handler B :=
  λ s, io_bind (m s)
         (λ r, match r with
               | (Returned a, s') => f a s'
               | (Raised e, s') => Ret (Raised e, s')
               | (Unhandled x, s') => Ret (Unhandled x, s')
               end).

Notation "'let*' x ':=' m 'in' k" := (bind m (λ x, k))
  (at level 10, x name, m at level 100, k at level 200).
Notation "m ';;' k" := (bind m (λ _, k))
  (at level 100, k at level 200, right associativity).

Definition get_users : handler (list User.t) := λ s, Ret (Returned (users s), s).

Definition set_users (us : list User.t) : handler unit :=
  λ s, Ret (Returned tt, {| users := us; user_contexts := user_contexts s |}).

Definition get_contexts : handler (gmap string string) :=
  λ s, Ret (Returned (user_contexts s), s).

Definition set_contexts (m : gmap string string) : handler unit :=
  λ s, Ret (Returned tt, {| users := users s; user_contexts := m |}).

Definition call_markdown (pdf_bytes : list Byte.byte) : handler (attempt string) :=
  λ s, Markdown pdf_bytes (λ r, Ret (Returned r, s)).

Definition call_post (url : string) (payload : json) (timeout : Z)
  : handler (attempt json) :=
  λ s, Post url payload timeout (λ r, Ret (Returned r, s)).

(** ** Utility *)

(** [any(u.username == username for u in users)] *)
Definition any_username (username : string) (us : list User.t) : bool :=
  existsb (λ u, String.eqb (User.username u) username) us.

Definition get_current_user (request : Request.t) : handler string :=
  let username := Request.cookies request !! "username" in
  match username with
  | Some (String c rest) =>
      let username := String c rest in
      let* us := get_users in
      if negb (any_username username us)
      then raise {| status_code := 401; detail := "유효하지 않은 사용자입니다." |}
      else ret username
  | _ => raise {| status_code := 401; detail := "로그인이 필요합니다." |}
  end.

(** ** 1. Sign up *)

Definition sign (user : User.t) : handler json :=
  let* us := get_users in
  if any_username (User.username user) us
  then raise {| status_code := 400; detail := "이미 존재하는 아이디입니다." |}
  else
    set_users (us ++ [user]);;
    ret (JDict [("message",
                 JStr ("환영합니다, " +:+ User.username user
                       +:+ "님! 고대 언어 연구소 가입 완료."))]).

(** ** 2. Cancel membership *)

Definition cancel_membership (request : Request.t)
  : handler (json * list cookie_action) :=
  let* username := get_current_user request in
  let* us := get_users in
  set_users (filter (λ u, User.username u ≠ username) us);;
  let* ctxs := get_contexts in
  (if bool_decide (is_Some (ctxs !! username))
   then set_contexts (delete username ctxs)
   else ret tt);;
  ret (JDict [("message",
               JStr "회원 탈퇴가 완료되었습니다. 데이터가 안전하게 파기되었습니다.")],
       [delete_cookie "username"]).

(** ** 3. Login *)

Definition login (user : User.t) : handler (json * list cookie_action) :=
  let* us := get_users in
  let ok := existsb (λ u, String.eqb (User.username u) (User.username user)
                          && String.eqb (User.password u) (User.password user)) us in
  if negb ok
  then raise {| status_code := 401;
                detail := "아이디 또는 비밀번호가 잘못되었습니다." |}
  else
    let content :=
      JDict [("message",
              JStr ("안녕하세요, " +:+ User.username user +:+ " 연구원님."))] in
    (* [response.set_cookie] encodes the header in latin-1 *)
    if negb (Str.latin1 (User.username user))
    then unhandled UnicodeEncodeError
    else ret (content, [set_cookie "username" (User.username user)]).

(** ** 4. Logout *)

Definition logout : handler (json * list cookie_action) :=
  ret (JDict [("message", JStr "로그아웃 되었습니다.")],
       [delete_cookie "username"]).

(** ** 5. Upload and text extraction *)

Definition upload (request : Request.t) (file : UploadFile.t) : handler json :=
  let* username := get_current_user request in
  let filename := Str.lower (default "" (UploadFile.filename file)) in
  if negb (Str.endswith filename ".pdf")
  then raise {| status_code := 400; detail := "PDF 파일만 업로드 가능합니다" |}
  else
    let pdf_bytes := UploadFile.read file in
    match pdf_bytes with
    | [] => raise {| status_code := 400; detail := "빈 파일입니다" |}
    | _ =>
        let* r := call_markdown pdf_bytes in
        match r with
        | Caught str_e =>
            raise {| status_code := 500; detail := "PDF 파싱 실패: " +:+ str_e |}
        | Value full_text =>
            let* ctxs := get_contexts in
            set_contexts (<[username := full_text]> ctxs);;
            ret (JDict [("ok", JBool true);
                        ("user", JStr username);
                        ("message",
                         JStr "고대 문서가 성공적으로 해독(Markdown 변환)되었습니다.");
                        ("text_length", JInt (Str.len full_text));
                        ("preview", JStr (Str.slice_to 200 full_text +:+ "..."))])
        end
    end.

(** ** RAG server communication *)

Definition llm_response (query context : string) : handler json :=
  let payload := JDict [("query", JStr query); ("context", JStr context)] in
  let* r := call_post (RAG_SERVER_URL +:+ "/answer") payload 60 in
  match r with
  | Value response_json => ret response_json
  | Caught str_e =>
      ret (JDict [("answer",
                   JStr ("죄송합니다. 인공지능 모델 서버에 연결할 수 없습니다. ("
                         +:+ str_e +:+ ")"))])
  end.

(** ** 6. Query *)

Definition query (request : Request.t) (q_req : QueryRequest.t) : handler json :=
  let* username := get_current_user request in
  let* ctxs := get_contexts in
  let context := ctxs !! username in
  if negb (Str.truthy context)
  then raise {| status_code := 400; detail := "먼저 고대 문서를 업로드해주세요." |}
  else
    let context := default "" context in
    let user_query := QueryRequest.query q_req in
    let* lr := llm_response user_query context in
    ret (JDict [("ok", JBool true);
                ("user", JStr username);
                ("query", JStr user_query);
                ("result", lr)]).

(** ** Running a handler *)

(** How the collaborators behave while one request is served. *)
Record Collaborators := {
  to_markdown : list Byte.byte → attempt string;
  requests_post : string → json → Z → attempt json
}.

(** What was sent to a collaborator. *)
Inductive contact :=
| Parsed (pdf_bytes : list Byte.byte)
| Posted (url : string) (payload : json) (timeout : Z).

(** Result and list of contacts, in the order they were made. *)
Fixpoint perform {A} (env : Collaborators) (p : io A) : A * list contact :=
  match p with
  | Ret a => (a, [])
  | Markdown b k =>
      let '(a, log) := perform env (k (to_markdown env b)) in
      (a, Parsed b :: log)
  | Post u pl t k =>
      let '(a, log) := perform env (k (requests_post env u pl t)) in
      (a, Posted u pl t :: log)
  end.

Definition exec {A} (env : Collaborators) (h : handler A) (s : state)
  : outcome A * state * list contact :=
  perform env (h s).

(** ** Requests and traces *)

Inductive call :=
| POST_sign (user : User.t)
| POST_Cancel_membership (request : Request.t)
| POST_login (user : User.t)
| POST_logout
| POST_upload (request : Request.t) (file : UploadFile.t)
| POST_query (request : Request.t) (q_req : QueryRequest.t).

(** State after serving one request. *)
Definition serve (env : Collaborators) (c : call) (s : state) : state :=
  match c with
  | POST_sign user => (exec env (sign user) s).1.2
  | POST_Cancel_membership request => (exec env (cancel_membership request) s).1.2
  | POST_login user => (exec env (login user) s).1.2
  | POST_logout => (exec env logout s).1.2
  | POST_upload request file => (exec env (upload request file) s).1.2
  | POST_query request q_req => (exec env (query request q_req) s).1.2
  end.

(** Requests are served one after the other; each comes with the
    behaviour of the collaborators at that time. *)
Fixpoint run (tr : list (Collaborators * call)) (s : state) : state :=
  match tr with
  | [] => s
  | (env, c) :: tr' => run tr' (serve env c s)
  end.

Definition reachable (s : state) : Prop := ∃ tr, run tr initial = s.

(** ** Vocabulary of the specification *)

(** An Identity for [u] exists. *)
Definition registered (s : state) (u : string) : Prop :=
  ∃ user, user ∈ users s ∧ User.username user = u.

(** The credential token carried by a request. *)
Definition token (request : Request.t) : option string :=
  Request.cookies request !! "username".

(** The request resolves to identity [u]. *)
Definition authenticated (s : state) (request : Request.t) (u : string) : Prop :=
  token request = Some u ∧ u ≠ "" ∧ registered s u.

Definition Unauthenticated (e : HTTPException) : Prop :=
  e = {| status_code := 401; detail := "로그인이 필요합니다." |}
  ∨ e = {| status_code := 401; detail := "유효하지 않은 사용자입니다." |}.

Definition AlreadyExists : HTTPException :=
  {| status_code := 400; detail := "이미 존재하는 아이디입니다." |}.

Definition UnsupportedFormat : HTTPException :=
  {| status_code := 400; detail := "PDF 파일만 업로드 가능합니다" |}.

Definition EmptyInput : HTTPException :=
  {| status_code := 400; detail := "빈 파일입니다" |}.

Definition ExtractionError (str_e : string) : HTTPException :=
  {| status_code := 500; detail := "PDF 파싱 실패: " +:+ str_e |}.

Definition NoContext : HTTPException :=
  {| status_code := 400; detail := "먼저 고대 문서를 업로드해주세요." |}.

(** The file name carries the accepted extension. *)
Definition accepted_extension (file : UploadFile.t) : bool :=
  Str.endswith (Str.lower (default "" (UploadFile.filename file))) ".pdf".

(** The degraded answer built when the RAG server cannot be used. *)
Definition apology (str_e : string) : json :=
  JDict [("answer",
          JStr ("죄송합니다. 인공지능 모델 서버에 연결할 수 없습니다. ("
                +:+ str_e +:+ ")"))].

Definition answer_payload (q context : string) : json :=
  JDict [("query", JStr q); ("context", JStr context)].

(** ** Response bodies and store updates *)

Definition sign_body (user : User.t) : json :=
  JDict [("message",
          JStr ("환영합니다, " +:+ User.username user
                +:+ "님! 고대 언어 연구소 가입 완료."))].

Definition upload_body (u full_text : string) : json :=
  JDict [("ok", JBool true);
         ("user", JStr u);
         ("message", JStr "고대 문서가 성공적으로 해독(Markdown 변환)되었습니다.");
         ("text_length", JInt (Str.len full_text));
         ("preview", JStr (Str.slice_to 200 full_text +:+ "..."))].

Definition query_body (u q : string) (lr : json) : json :=
  JDict [("ok", JBool true); ("user", JStr u); ("query", JStr q); ("result", lr)].

Definition with_users (us : list User.t) (s : state) : state :=
  {| users := us; user_contexts := user_contexts s |}.

Definition with_contexts (m : gmap string string) (s : state) : state :=
  {| users := users s; user_contexts := m |}.

(** ** Transitions of the stores *)

(** Serving a request changes the stores in one of three ways, or not at
    all: a registration appends an identity, a deregistration removes an
    identity with its context, a successful upload installs a context. *)
Inductive transition (env : Collaborators) (s : state) : call → state → Prop :=
| t_same c : transition env s c s
| t_sign user :
    ¬ registered s (User.username user) →
    transition env s (POST_sign user) (with_users (users s ++ [user]) s)
| t_cancel request u :
    authenticated s request u →
    transition env s (POST_Cancel_membership request)
      {| users := filter (λ x, User.username x ≠ u) (users s);
         user_contexts := delete u (user_contexts s) |}
| t_upload request file u full_text :
    authenticated s request u →
    accepted_extension file = true →
    UploadFile.read file ≠ [] →
    to_markdown env (UploadFile.read file) = Value full_text →
    transition env s (POST_upload request file)
      (with_contexts (<[u := full_text]> (user_contexts s)) s).

Definition registers (u : string) (c : call) : Prop :=
  match c with
  | POST_sign user => User.username user = u
  | _ => False
  end.

(** The request installs a new context for [u] or removes the one it
    has: a successful upload, or a deregistration, presenting token [u]. *)
Definition replaces_context (u : string) (env : Collaborators) (c : call)
    (s : state) : Prop :=
  match c with
  | POST_upload request file =>
      token request = Some u
      ∧ ∃ body, (exec env (upload request file) s).1.1 = Returned body
  | POST_Cancel_membership request => token request = Some u
  | _ => False
  end.

(** No request of the trace, served from [s] on, replaces [u]'s context. *)
Fixpoint undisturbed (u : string) (tr : list (Collaborators * call))
    (s : state) : Prop :=
  match tr with
  | [] => True
  | (env, c) :: tr' =>
      ¬ replaces_context u env c s ∧ undisturbed u tr' (serve env c s)
  end.

(** The invariant linking the two stores. *)
Definition context_has_identity (s : state) : Prop :=
  ∀ u, is_Some (user_contexts s !! u) → registered s u.

(** ** Sample data *)

Module Sample.

Definition alice : User.t := User.mk "alice" "pw1".

Definition anonymous : Request.t := Request.mk ∅.

Definition as_alice : Request.t := Request.mk {[ "username" := "alice" ]}.

Definition notes_txt : UploadFile.t :=
  UploadFile.mk (Some "notes.txt") [Byte.x68; Byte.x69].

Definition scan_pdf : UploadFile.t :=
  UploadFile.mk (Some "Scan.PDF") [Byte.x25; Byte.x50; Byte.x44; Byte.x46].

Definition who : QueryRequest.t := QueryRequest.mk "who is the author?".

(** Extraction finds no text; the RAG server refuses connections. *)
Definition blank_offline : Collaborators :=
  {| to_markdown := λ _, Value "";
     requests_post := λ _ _ _, Caught "Connection refused" |}.

(** Extraction returns a short text; the RAG server answers. *)
Definition online : Collaborators :=
  {| to_markdown := λ _, Value "# Tablet";
     requests_post := λ _ _ _, Value (JDict [("answer", JStr "Enheduanna")]) |}.

(** Extraction raises. *)
Definition broken : Collaborators :=
  {| to_markdown := λ _, Caught "cannot open broken document";
     requests_post := λ _ _ _, Caught "Connection refused" |}.

(** alice is registered and has uploaded nothing. *)
Definition registered_state : state := run [(online, POST_sign alice)] initial.

(** alice has uploaded a document in which no text was found. *)
Definition blank_state : state :=
  run [(online, POST_sign alice);
       (blank_offline, POST_upload as_alice scan_pdf)] initial.

(** alice has uploaded a document with text. *)
Definition tablet_state : state :=
  run [(online, POST_sign alice);
       (online, POST_upload as_alice scan_pdf)] initial.

End Sample.

(** ** Pre-indexing helper of the RAG server *)

(** [upload_to_rag] is defined in the source but called by no endpoint.
    Its guarded block is [requests.post] followed by [json()]; the value
    returned is paired with the lines written by [print]. *)
Definition upload_to_rag (full_text : string) (chunk_size : Z)
  : io (json * list string) :=
  Post (RAG_SERVER_URL +:+ "/upload")
    (JDict [("full_text", JStr full_text); ("chunk_size", JInt chunk_size)]) 10
    (λ r, match r with
          | Value response_json => Ret (response_json, [])
          | Caught str_e =>
              Ret (JDict [("error", JStr "RAG 서버 연결 실패")],
                   ["RAG Server Error: " +:+ str_e])
          end).

(** Default value of the parameter [chunk_size]. *)
Definition default_chunk_size : Z := 1024.

(** ** HTTP view of a request *)

(** The endpoints that return a plain dict send no cookie instruction. *)
Definition plain (r : outcome json * state * list contact)
  : outcome (json * list cookie_action) * state * list contact :=
  match r with
  | (Returned body, s, log) => (Returned (body, []), s, log)
  | (Raised e, s, log) => (Raised e, s, log)
  | (Unhandled x, s, log) => (Unhandled x, s, log)
  end.

(** Answer, next state and collaborator contacts of one request. *)
Definition respond (env : Collaborators) (c : call) (s : state)
  : outcome (json * list cookie_action) * state * list contact :=
  match c with
  | POST_sign user => plain (exec env (sign user) s)
  | POST_Cancel_membership request => exec env (cancel_membership request) s
  | POST_login user => exec env (login user) s
  | POST_logout => exec env logout s
  | POST_upload request file => plain (exec env (upload request file) s)
  | POST_query request q_req => plain (exec env (query request q_req) s)
  end.

(** Status code of the answer: 200 for a returned body, the code of the
    [HTTPException] when one is raised, and the 500 with which the
    framework answers an exception that no handler caught. *)
Definition status {A} (o : outcome A) : Z :=
  match o with
  | Returned _ => 200
  | Raised e => status_code e
  | Unhandled _ => 500
  end.

(** The credential token a request presents to the session resolver;
    [sign], [login] and [logout] do not consult it. *)
Definition presented (c : call) : option string :=
  match c with
  | POST_Cancel_membership request => token request
  | POST_upload request _ => token request
  | POST_query request _ => token request
  | _ => None
  end.

(** Value stored under a key of a JSON object. *)
Fixpoint assoc (k : string) (d : list (string * json)) : option json :=
  match d with
  | [] => None
  | (k', v) :: d' => if String.eqb k' k then Some v else assoc k d'
  end.

Definition field (k : string) (j : json) : option json :=
  match j with
  | JDict d => assoc k d
  | _ => None
  end.

(** The endpoints placed behind the session resolver. *)
Definition guarded (c : call) : bool :=
  match c with
  | POST_Cancel_membership _ | POST_upload _ _ | POST_query _ _ => true
  | _ => false
  end.

#[global] Instance User_eq_dec : EqDecision User.t.
Proof. solve_decision. Defined.

(** ** More sample data *)

Module Sample2.

Definition bob : User.t := User.mk "bob" "hunter2".

Definition nameless : User.t := User.mk "" "secret".

Definition as_bob : Request.t := Request.mk {[ "username" := "bob" ]}.

Definition empty_pdf : UploadFile.t := UploadFile.mk (Some "empty.pdf") [].

Definition second_pdf : UploadFile.t :=
  UploadFile.mk (Some "second.pdf") [Byte.x25; Byte.x50].

(** A text of 250 characters, 500 bytes. *)
Definition accents : string :=
  Eval vm_compute in
    String.concat "" (repeat "éèêëàâäîïô" 25).

(** Extraction returns that text. *)
Definition verbose : Collaborators :=
  {| to_markdown := λ _, Value accents;
     requests_post := λ _ _ _, Value JNull |}.



(** alice and bob are registered; alice has uploaded a document. *)
Definition two_users : state :=
  run [(Sample.online, POST_sign Sample.alice);
       (Sample.online, POST_sign bob);
       (Sample.online, POST_upload Sample.as_alice Sample.scan_pdf)] initial.

(** Only the user with the empty name is registered. *)
Definition nameless_state : state :=
  run [(Sample.online, POST_sign nameless)] initial.

End Sample2.

(** * Properties *)

(** ** String helpers *)

Lemma endswith_refl (s : string) : Str.endswith s s = true.
Proof. destruct s; cbn [Str.endswith]; by rewrite String.eqb_refl. Qed.

Lemma endswith_app (p suffix : string) : Str.endswith (p +:+ suffix) suffix = true.
Proof.
  induction p as [|c p IH].
  - apply endswith_refl.
  - change (String c p +:+ suffix) with (String c (p +:+ suffix)).
    cbn [Str.endswith]. destruct (String.eqb _ _); [reflexivity | exact IH].
Qed.

Lemma endswith_inv (s suffix : string) :
  Str.endswith s suffix = true → ∃ p, s = p +:+ suffix.
Proof.
  induction s as [|c s IH]; cbn [Str.endswith].
  - destruct (String.eqb_spec "" suffix) as [<-|]; [|discriminate].
    intros _. by exists "".
  - destruct (String.eqb_spec (String c s) suffix) as [<-|].
    + intros _. by exists "".
    + intros [p ->]%IH. by exists (String c p).
Qed.

Example lower_mixed_case : Str.lower "Scan.PDF" = "scan.pdf".
Proof. reflexivity. Qed.

Example slice_to_short : Str.slice_to 200 "# Tablet" = "# Tablet".
Proof. reflexivity. Qed.

Example len_counts_characters : Str.len "고대 문서" = 5.
Proof. reflexivity. Qed.

Example slice_to_cuts_characters : Str.slice_to 2 "고대 문서" = "고대".
Proof. reflexivity. Qed.

Example utf8_hangul :
  Str.utf8 [44256; 45824; 32; 47928; 49436]%N = "고대 문서".
Proof. reflexivity. Qed.

Example utf8_two_and_four_bytes : Str.utf8 [233; 128512]%N = "é😀".
Proof. reflexivity. Qed.

Example latin1_names :
  Str.latin1 "alice" = true ∧ Str.latin1 "José" = true
  ∧ Str.latin1 "은호" = false.
Proof. by vm_compute. Qed.

(** Arithmetic on bytes, with division and remainder by constants. *)
Ltac byte_arith := zify; Z.to_euclidean_division_equations; lia.

Lemma is_start (k : N) :
  (k < 128 ∨ 192 ≤ k < 256)%N → Str.is_continuation (ascii_of_N k) = false.
Proof.
  intros Hk. unfold Str.is_continuation.
  rewrite N_ascii_embedding by lia.
  apply andb_false_iff. rewrite N.leb_gt, N.ltb_ge. lia.
Qed.

Lemma is_cont (k : N) :
  (128 ≤ k < 192)%N → Str.is_continuation (ascii_of_N k) = true.
Proof.
  intros Hk. unfold Str.is_continuation.
  rewrite N_ascii_embedding by lia.
  apply andb_true_iff. rewrite N.leb_le, N.ltb_lt. lia.
Qed.

(** Unfolds the encoding of one code point and settles which of its bytes
    start a character. *)
Ltac encode_char n :=
  unfold Str.utf8_char;
  destruct (N.ltb_spec n 128);
    [|destruct (N.ltb_spec n 2048); [|destruct (N.ltb_spec n 65536)]];
  lazy beta iota delta [String.append];
  cbn [Str.chars Str.slice_to Str.latin1];
  rewrite ?(is_start n), ?(is_start (192 + n / 64)),
    ?(is_start (224 + n / 4096)), ?(is_start (240 + (n / 262144) mod 8)),
    ?(is_cont (128 + n mod 64)), ?(is_cont (128 + (n / 64) mod 64)),
    ?(is_cont (128 + (n / 4096) mod 64)) by byte_arith.

Lemma chars_utf8_char (n : N) (s : string) :
  Str.chars (Str.utf8_char n +:+ s) = S (Str.chars s).
Proof. encode_char n; reflexivity. Qed.

Lemma slice_to_utf8_char (k : nat) (n : N) (s : string) :
  Str.slice_to (S k) (Str.utf8_char n +:+ s)
  = Str.utf8_char n +:+ Str.slice_to k s.
Proof. encode_char n; reflexivity. Qed.

Lemma slice_to_0_utf8_char (n : N) (s : string) :
  Str.slice_to 0 (Str.utf8_char n +:+ s) = "".
Proof. encode_char n; reflexivity. Qed.

(** On the encoding of a sequence of code points, [Str.len] is the number
    of code points and [Str.slice_to k] encodes the first [k] of them. *)
Lemma len_utf8 (cs : list N) : Str.len (Str.utf8 cs) = Z.of_nat (length cs).
Proof.
  unfold Str.len. f_equal.
  induction cs as [|c cs IH]; [done|].
  cbn [Str.utf8 length]. by rewrite chars_utf8_char, IH.
Qed.

Lemma slice_to_utf8 (k : nat) (cs : list N) :
  Str.slice_to k (Str.utf8 cs) = Str.utf8 (take k cs).
Proof.
  revert k. induction cs as [|c cs IH]; intros [|k]; try done.
  - cbn [Str.utf8 take]. apply slice_to_0_utf8_char.
  - cbn [Str.utf8 take]. by rewrite slice_to_utf8_char, IH.
Qed.



Lemma slice_to_prefix (n : nat) (t : string) :
  String.prefix (Str.slice_to n t) t = true.
Proof.
  revert n. induction t as [|c t IH]; intros n; [done|].
  cbn [Str.slice_to]. destruct (Str.is_continuation c).
  - simpl. rewrite IH. by destruct (ascii_dec c c).
  - destruct n as [|n]; [done|]. simpl. rewrite IH. by destruct (ascii_dec c c).
Qed.

Lemma chars_slice_to (n : nat) (t : string) :
  Str.chars (Str.slice_to n t) = (n `min` Str.chars t)%nat.
Proof.
  revert n. induction t as [|c t IH]; intros n; [by destruct n|].
  cbn [Str.slice_to Str.chars]. destruct (Str.is_continuation c) eqn:Hc.
  - cbn [Str.chars]. by rewrite Hc, IH.
  - destruct n as [|n]; [done|]. cbn [Str.chars]. rewrite Hc, IH. simpl. lia.
Qed.

Lemma slice_to_all (n : nat) (t : string) :
  (Str.chars t ≤ n)%nat → Str.slice_to n t = t.
Proof.
  revert n. induction t as [|c t IH]; intros n Hlen; [done|].
  cbn [Str.slice_to Str.chars] in *. destruct (Str.is_continuation c).
  - rewrite IH; [done | lia].
  - destruct n as [|n]; [lia|]. rewrite IH; [done | lia].
Qed.

(** ** Session resolver *)

Lemma any_username_true (u : string) (us : list User.t) :
  any_username u us = true ↔ ∃ user, user ∈ us ∧ User.username user = u.
Proof.
  unfold any_username. rewrite existsb_exists. split.
  - intros (user & Hin & Heq). exists user. split.
    + by apply list_elem_of_In.
    + by apply String.eqb_eq.
  - intros (user & Hin & Heq). exists user. split.
    + by apply list_elem_of_In.
    + by apply String.eqb_eq.
Qed.

Lemma any_username_registered (s : state) (u : string) :
  any_username u (users s) = true ↔ registered s u.
Proof. apply any_username_true. Qed.

Lemma authenticated_token s request u :
  authenticated s request u → token request = Some u.
Proof. by intros [H _]. Qed.

Lemma authenticated_inj s request u v :
  authenticated s request u → authenticated s request v → u = v.
Proof. intros [H1 _] [H2 _]. congruence. Qed.

(** [get_current_user] contacts nobody, leaves the stores alone, and
    either resolves the token or raises one of the two 401 errors. *)
Lemma get_current_user_cases (request : Request.t) (s : state) :
  (∃ u, authenticated s request u
        ∧ get_current_user request s = Ret (Returned u, s))
  ∨ (∃ e, Unauthenticated e
          ∧ (∀ u, ¬ authenticated s request u)
          ∧ get_current_user request s = Ret (Raised e, s)).
Proof.
  unfold get_current_user, authenticated, token.
  destruct (Request.cookies request !! "username") as [[|c rest]|] eqn:Hc.
  - right. eexists. split; [by left|]. split; [|reflexivity].
    intros u (Hu & Hne & _). congruence.
  - unfold bind, get_users, raise, ret; simpl.
    destruct (any_username (String c rest) (users s)) eqn:Hany; simpl.
    + left. eexists. split; [|reflexivity].
      split; [reflexivity|]. split; [discriminate|].
      by apply any_username_registered.
    + right. eexists. split; [by right|]. split; [|reflexivity].
      intros u (Hu & _ & Hreg). injection Hu as <-.
      apply any_username_registered in Hreg. congruence.
  - right. eexists. split; [by left|]. split; [|reflexivity].
    intros u (Hu & _). discriminate.
Qed.

Lemma get_current_user_authenticated request s u :
  authenticated s request u →
  get_current_user request s = Ret (Returned u, s).
Proof.
  intros Hauth.
  destruct (get_current_user_cases request s)
    as [(v & Hv & ->)|(e & _ & Hno & _)].
  - by rewrite (authenticated_inj _ _ _ _ Hauth Hv).
  - by destruct (Hno u).
Qed.

(** A handler that starts with [get_current_user]. *)
Lemma exec_after_login {A} env request (k : string → handler A) s u :
  authenticated s request u →
  exec env (bind (get_current_user request) k) s = exec env (k u) s.
Proof.
  intros Hauth. unfold exec, bind.
  by rewrite (get_current_user_authenticated _ _ _ Hauth).
Qed.

Lemma exec_without_login {A} env request (k : string → handler A) s :
  (∀ u, ¬ authenticated s request u) →
  ∃ e, Unauthenticated e
       ∧ exec env (bind (get_current_user request) k) s = (Raised e, s, []).
Proof.
  intros Hno.
  destruct (get_current_user_cases request s)
    as [(v & Hv & _)|(e & He & _ & Heq)].
  - by destruct (Hno v).
  - exists e. split; [done|]. unfold exec, bind. by rewrite Heq.
Qed.

(** ** What each endpoint does *)

Lemma exec_sign env user s :
  exec env (sign user) s =
  if any_username (User.username user) (users s)
  then (Raised AlreadyExists, s, [])
  else (Returned (sign_body user), with_users (users s ++ [user]) s, []).
Proof.
  unfold exec, sign, bind, get_users; simpl.
  by destruct (any_username _ _).
Qed.

Lemma exec_cancel_membership env request s u :
  authenticated s request u →
  exec env (cancel_membership request) s =
  (Returned (JDict [("message",
                     JStr "회원 탈퇴가 완료되었습니다. 데이터가 안전하게 파기되었습니다.")],
             [delete_cookie "username"]),
   {| users := filter (λ x, User.username x ≠ u) (users s);
      user_contexts := delete u (user_contexts s) |},
   []).
Proof.
  intros Hauth. unfold cancel_membership.
  rewrite (exec_after_login _ _ _ _ _ Hauth).
  unfold exec, bind, get_users, set_users, get_contexts, set_contexts, ret; simpl.
  case_bool_decide as Hin; simpl; [reflexivity|].
  rewrite delete_id; [reflexivity|].
  by apply eq_None_not_Some.
Qed.

Lemma exec_login_state env user s : (exec env (login user) s).1.2 = s.
Proof.
  unfold exec, login, bind, get_users, raise, unhandled, ret; simpl.
  destruct (existsb _ _); simpl; [|done].
  by destruct (Str.latin1 _).
Qed.

Lemma exec_logout env s :
  exec env logout s =
  (Returned (JDict [("message", JStr "로그아웃 되었습니다.")],
             [delete_cookie "username"]), s, []).
Proof. reflexivity. Qed.

Lemma exec_upload env request file s u :
  authenticated s request u →
  exec env (upload request file) s =
  if negb (accepted_extension file) then (Raised UnsupportedFormat, s, [])
  else match UploadFile.read file with
       | [] => (Raised EmptyInput, s, [])
       | pdf_bytes =>
           match to_markdown env pdf_bytes with
           | Caught str_e => (Raised (ExtractionError str_e), s, [Parsed pdf_bytes])
           | Value full_text =>
               (Returned (upload_body u full_text),
                with_contexts (<[u := full_text]> (user_contexts s)) s,
                [Parsed pdf_bytes])
           end
       end.
Proof.
  intros Hauth. unfold upload.
  rewrite (exec_after_login _ _ _ _ _ Hauth).
  unfold accepted_extension.
  destruct (negb (Str.endswith _ _)); [reflexivity|].
  destruct (UploadFile.read file) as [|b bs]; [reflexivity|].
  unfold exec, bind, call_markdown; simpl.
  by destruct (to_markdown env (b :: bs)).
Qed.

Lemma exec_query env request q_req s u :
  authenticated s request u →
  exec env (query request q_req) s =
  match user_contexts s !! u with
  | Some (String c rest) =>
      let q := QueryRequest.query q_req in
      let url := RAG_SERVER_URL +:+ "/answer" in
      let payload := answer_payload q (String c rest) in
      (Returned (query_body u q
                   match requests_post env url payload 60 with
                   | Value response_json => response_json
                   | Caught str_e => apology str_e
                   end),
       s, [Posted url payload 60])
  | _ => (Raised NoContext, s, [])
  end.
Proof.
  intros Hauth. unfold query.
  rewrite (exec_after_login _ _ _ _ _ Hauth).
  unfold exec, bind, get_contexts; simpl.
  destruct (user_contexts s !! u) as [[|c rest]|]; simpl; try reflexivity.
  by destruct (requests_post env _ _ _).
Qed.

(** ** Every request is a transition *)

Lemma serve_transition env c s : transition env s c (serve env c s).
Proof.
  destruct c as [user|request|user| |request file|request q_req]; simpl.
  - rewrite exec_sign.
    destruct (any_username _ _) eqn:Hany; simpl; [constructor|].
    apply t_sign. rewrite <- any_username_registered. congruence.
  - destruct (get_current_user_cases request s)
      as [(u & Hu & _)|(e & _ & Hno & Hgcu)].
    + rewrite (exec_cancel_membership _ _ _ _ Hu). simpl. by apply t_cancel.
    + unfold cancel_membership, exec, bind. rewrite Hgcu. simpl. constructor.
  - rewrite exec_login_state. constructor.
  - constructor.
  - destruct (get_current_user_cases request s)
      as [(u & Hu & _)|(e & _ & Hno & Hgcu)].
    + rewrite (exec_upload _ _ _ _ _ Hu).
      destruct (accepted_extension file) eqn:Hext; simpl; [|constructor].
      destruct (UploadFile.read file) as [|b bs] eqn:Hread; simpl; [constructor|].
      destruct (to_markdown env (b :: bs)) as [full_text|str_e] eqn:Hmd;
        simpl; [|constructor].
      apply t_upload; try done.
      * by rewrite Hread.
      * by rewrite Hread.
    + unfold upload, exec, bind. rewrite Hgcu. simpl. constructor.
  - destruct (get_current_user_cases request s)
      as [(u & Hu & _)|(e & _ & Hno & Hgcu)].
    + rewrite (exec_query _ _ _ _ _ Hu).
      destruct (user_contexts s !! u) as [[|c rest]|]; simpl; constructor.
    + unfold query, exec, bind. rewrite Hgcu. simpl. constructor.
Qed.

(** A handler that starts with [get_current_user] and is called without
    a valid token stops there. *)
Lemma upload_without_login env request file s :
  (∀ u, ¬ authenticated s request u) →
  ∃ e, Unauthenticated e ∧ exec env (upload request file) s = (Raised e, s, []).
Proof. intros Hno. unfold upload. by apply exec_without_login. Qed.

Lemma query_without_login env request q_req s :
  (∀ u, ¬ authenticated s request u) →
  ∃ e, Unauthenticated e ∧ exec env (query request q_req) s = (Raised e, s, []).
Proof. intros Hno. unfold query. by apply exec_without_login. Qed.

Lemma cancel_without_login env request s :
  (∀ u, ¬ authenticated s request u) →
  ∃ e, Unauthenticated e
       ∧ exec env (cancel_membership request) s = (Raised e, s, []).
Proof. intros Hno. unfold cancel_membership. by apply exec_without_login. Qed.

Lemma authenticated_or_not s request :
  (∃ u, authenticated s request u) ∨ (∀ u, ¬ authenticated s request u).
Proof.
  destruct (get_current_user_cases request s)
    as [(u & Hu & _)|(e & _ & Hno & _)]; eauto.
Qed.

(** Closes [authenticated s request "alice"] on the sample states. *)
Ltac alice_is_authenticated :=
  split; [reflexivity|];
  split; [discriminate|];
  exists Sample.alice; split; [vm_compute; left | reflexivity].

(** ** Upload: extension check *)

(** C1, as stated, fails: an upload of [notes.txt] without any credential
    token is answered with the 401 of the session resolver, not with
    [UnsupportedFormat]. *)
Lemma upload_txt_anonymous_not_UnsupportedFormat :
  accepted_extension Sample.notes_txt = false
  ∧ (exec Sample.online (upload Sample.anonymous Sample.notes_txt) initial).1.1
    = Raised {| status_code := 401; detail := "로그인이 필요합니다." |}
  ∧ (exec Sample.online (upload Sample.anonymous Sample.notes_txt) initial).1.1
    ≠ Raised UnsupportedFormat.
Proof. repeat split. discriminate. Qed.

(** C1 (amended): an upload whose lower-cased file name does not end in
    the accepted extension always fails and leaves both stores as they
    were, contacting no collaborator; the error is [UnsupportedFormat]
    when the caller is authenticated and [Unauthenticated] when not. *)
Theorem upload_other_extension_fails env request file s :
  accepted_extension file = false →
  ∃ e, exec env (upload request file) s = (Raised e, s, [])
       ∧ ((∃ u, authenticated s request u) → e = UnsupportedFormat)
       ∧ ((∀ u, ¬ authenticated s request u) → Unauthenticated e).
Proof.
  intros Hext.
  destruct (authenticated_or_not s request) as [[u Hu]|Hno].
  - exists UnsupportedFormat. rewrite (exec_upload _ _ _ _ _ Hu), Hext. simpl.
    split; [reflexivity|]. split; [done|].
    intros Hno. by destruct (Hno u).
  - destruct (upload_without_login env request file s Hno) as (e & He & Heq).
    exists e. split; [done|]. split; [|done].
    intros [u Hu]. by destruct (Hno u).
Qed.

Lemma upload_other_extension_fails_witness :
  ∃ e, exec Sample.online (upload Sample.as_alice Sample.notes_txt)
         Sample.registered_state
       = (Raised e, Sample.registered_state, [])
       ∧ ((∃ u, authenticated Sample.registered_state Sample.as_alice u)
          → e = UnsupportedFormat)
       ∧ ((∀ u, ¬ authenticated Sample.registered_state Sample.as_alice u)
          → Unauthenticated e).
Proof.
  apply (upload_other_extension_fails Sample.online Sample.as_alice
           Sample.notes_txt Sample.registered_state).
  reflexivity.
Defined.

(** ** Query: missing context *)

(** C2, as stated, fails: after an upload whose extracted text is empty,
    alice has a Document Context (the empty string), yet her query is
    answered with [NoContext]. *)
Lemma query_with_blank_context_is_NoContext :
  user_contexts Sample.blank_state !! "alice" = Some ""
  ∧ authenticated Sample.blank_state Sample.as_alice "alice"
  ∧ (exec Sample.online (query Sample.as_alice Sample.who) Sample.blank_state).1.1
    = Raised NoContext.
Proof. split; [reflexivity|]. split; [alice_is_authenticated | reflexivity]. Qed.

(** C2 (amended): for an authenticated identity, [query] fails with
    [NoContext] exactly when the identity has no Document Context or its
    Document Context is the empty string. *)
Theorem query_NoContext_iff env request q_req s u :
  authenticated s request u →
  (exec env (query request q_req) s).1.1 = Raised NoContext
  ↔ (user_contexts s !! u = None ∨ user_contexts s !! u = Some "").
Proof.
  intros Hauth. rewrite (exec_query _ _ _ _ _ Hauth).
  destruct (user_contexts s !! u) as [[|c rest]|]; simpl.
  - split; [by right | done].
  - split; [discriminate|]. intros [?|?]; discriminate.
  - split; [by left | done].
Qed.

Lemma query_NoContext_iff_witness :
  (exec Sample.online (query Sample.as_alice Sample.who)
     Sample.registered_state).1.1 = Raised NoContext
  ↔ (user_contexts Sample.registered_state !! "alice" = None
     ∨ user_contexts Sample.registered_state !! "alice" = Some "").
Proof.
  apply (query_NoContext_iff Sample.online Sample.as_alice Sample.who
           Sample.registered_state "alice").
  alice_is_authenticated.
Defined.

(** ** Upload: successful ingestion *)

Lemma upload_returned env request file s body s' log :
  exec env (upload request file) s = (Returned body, s', log) →
  ∃ u T,
    authenticated s request u
    ∧ to_markdown env (UploadFile.read file) = Value T
    ∧ users s' = users s
    ∧ user_contexts s' = <[u := T]> (user_contexts s)
    ∧ user_contexts s' !! u = Some T
    ∧ body = upload_body u T.
Proof.
  intros Hexec.
  destruct (authenticated_or_not s request) as [[u Hu]|Hno].
  - rewrite (exec_upload _ _ _ _ _ Hu) in Hexec.
    destruct (negb (accepted_extension file)); simpl in Hexec;
      [discriminate Hexec|].
    destruct (UploadFile.read file) as [|b bs]; [discriminate Hexec|].
    destruct (to_markdown env (b :: bs)) as [T|str_e]; [|discriminate Hexec].
    injection Hexec as <- <- <-.
    exists u, T. simpl.
    refine (conj Hu (conj eq_refl (conj eq_refl (conj eq_refl (conj _ eq_refl))))).
    apply lookup_insert_eq.
  - destruct (upload_without_login env request file s Hno) as (e & _ & Heq).
    rewrite Heq in Hexec. discriminate.
Qed.



(** ** Registration *)

Lemma sign_registered env user s :
  registered s (User.username user) →
  exec env (sign user) s = (Raised AlreadyExists, s, []).
Proof.
  intros Hreg. apply any_username_registered in Hreg.
  by rewrite exec_sign, Hreg.
Qed.

Lemma sign_fresh env user s :
  ¬ registered s (User.username user) →
  exec env (sign user) s
  = (Returned (sign_body user), with_users (users s ++ [user]) s, []).
Proof.
  intros Hreg. rewrite exec_sign.
  destruct (any_username _ _) eqn:Hany; [|reflexivity].
  by apply any_username_registered in Hany.
Qed.

Lemma registered_after_append s user :
  registered (with_users (users s ++ [user]) s) (User.username user).
Proof.
  exists user. split; [|reflexivity]. simpl.
  apply elem_of_app. right. by apply list_elem_of_singleton.
Qed.

(** C8: registering a user name whose Identity exists fails with
    [AlreadyExists] and changes nothing; in particular, right after a
    first successful registration, a second one under the same name
    (whatever the password) fails and leaves the state as the first
    registration made it. *)
Theorem sign_twice_AlreadyExists env user s :
  (registered s (User.username user) →
   exec env (sign user) s = (Raised AlreadyExists, s, []))
  ∧ (∀ env0 first body,
       User.username first = User.username user →
       (exec env0 (sign first) s).1.1 = Returned body →
       exec env (sign user) (serve env0 (POST_sign first) s)
       = (Raised AlreadyExists, serve env0 (POST_sign first) s, [])).
Proof.
  split; [apply sign_registered|].
  intros env0 first body Hname Hfirst. simpl.
  apply sign_registered. rewrite <- Hname.
  rewrite exec_sign in Hfirst |- *.
  destruct (any_username _ _); [discriminate Hfirst|].
  apply registered_after_append.
Qed.

Lemma sign_twice_AlreadyExists_witness :
  exec Sample.online (sign (User.mk "alice" "other"))
    (serve Sample.online (POST_sign Sample.alice) initial)
  = (Raised AlreadyExists, serve Sample.online (POST_sign Sample.alice) initial, []).
Proof.
  apply (proj2 (sign_twice_AlreadyExists Sample.online (User.mk "alice" "other")
                  initial)
           Sample.online Sample.alice (sign_body Sample.alice));
    reflexivity.
Defined.

(** ** Upload: failures *)

(** C9: an upload that fails leaves the stores exactly as they were, and
    its error is one of [Unauthenticated], [UnsupportedFormat],
    [EmptyInput], [ExtractionError]. *)
Theorem failed_upload_keeps_stores env request file s e s' log :
  exec env (upload request file) s = (Raised e, s', log) →
  s' = s
  ∧ (∀ u, user_contexts s' !! u = user_contexts s !! u)
  ∧ (Unauthenticated e ∨ e = UnsupportedFormat ∨ e = EmptyInput
     ∨ ∃ str_e, e = ExtractionError str_e).
Proof.
  intros Hexec.
  assert (s' = s ∧ (Unauthenticated e ∨ e = UnsupportedFormat ∨ e = EmptyInput
                    ∨ ∃ str_e, e = ExtractionError str_e)) as [-> He];
    [|by repeat split].
  destruct (authenticated_or_not s request) as [[u Hu]|Hno].
  - rewrite (exec_upload _ _ _ _ _ Hu) in Hexec.
    destruct (negb (accepted_extension file)); simpl in Hexec.
    { injection Hexec as <- <- <-. auto. }
    destruct (UploadFile.read file) as [|b bs].
    { injection Hexec as <- <- <-. auto. }
    destruct (to_markdown env (b :: bs)) as [T|str_e]; [discriminate Hexec|].
    injection Hexec as <- <- <-. eauto 6.
  - destruct (upload_without_login env request file s Hno) as (e' & He & Heq).
    rewrite Heq in Hexec. injection Hexec as <- <- <-. auto.
Qed.

Lemma failed_upload_keeps_stores_witness :
  Sample.tablet_state = Sample.tablet_state
  ∧ (∀ u, user_contexts Sample.tablet_state !! u
          = user_contexts Sample.tablet_state !! u)
  ∧ (Unauthenticated (ExtractionError "cannot open broken document")
     ∨ ExtractionError "cannot open broken document" = UnsupportedFormat
     ∨ ExtractionError "cannot open broken document" = EmptyInput
     ∨ ∃ str_e, ExtractionError "cannot open broken document"
                = ExtractionError str_e).
Proof.
  apply (failed_upload_keeps_stores Sample.broken Sample.as_alice Sample.scan_pdf
           Sample.tablet_state (ExtractionError "cannot open broken document")
           Sample.tablet_state [Parsed (UploadFile.read Sample.scan_pdf)]).
  reflexivity.
Defined.

(** ** Upload: empty extracted text *)

(** C10: when extraction succeeds with the empty string, the upload
    succeeds, the empty string becomes the caller's Document Context, and
    the body reports length 0 and the bare truncation marker. *)
Theorem upload_empty_text_succeeds env request file s u :
  authenticated s request u →
  accepted_extension file = true →
  UploadFile.read file ≠ [] →
  to_markdown env (UploadFile.read file) = Value "" →
  exec env (upload request file) s
  = (Returned (JDict [("ok", JBool true);
                      ("user", JStr u);
                      ("message",
                       JStr "고대 문서가 성공적으로 해독(Markdown 변환)되었습니다.");
                      ("text_length", JInt 0);
                      ("preview", JStr "...")]),
     with_contexts (<[u := ""]> (user_contexts s)) s,
     [Parsed (UploadFile.read file)])
  ∧ user_contexts (serve env (POST_upload request file) s) !! u = Some "".
Proof.
  intros Hauth Hext Hread Hmd. simpl.
  rewrite (exec_upload _ _ _ _ _ Hauth), Hext. simpl.
  destruct (UploadFile.read file) as [|b bs]; [done|].
  rewrite Hmd. simpl. split; [reflexivity|]. apply lookup_insert_eq.
Qed.

Lemma upload_empty_text_succeeds_witness :
  exec Sample.blank_offline (upload Sample.as_alice Sample.scan_pdf)
    Sample.registered_state
  = (Returned (JDict [("ok", JBool true);
                      ("user", JStr "alice");
                      ("message",
                       JStr "고대 문서가 성공적으로 해독(Markdown 변환)되었습니다.");
                      ("text_length", JInt 0);
                      ("preview", JStr "...")]),
     with_contexts (<["alice" := ""]> (user_contexts Sample.registered_state))
       Sample.registered_state,
     [Parsed (UploadFile.read Sample.scan_pdf)])
  ∧ user_contexts (serve Sample.blank_offline
                     (POST_upload Sample.as_alice Sample.scan_pdf)
                     Sample.registered_state) !! "alice" = Some "".
Proof.
  apply (upload_empty_text_succeeds Sample.blank_offline Sample.as_alice
           Sample.scan_pdf Sample.registered_state "alice").
  - alice_is_authenticated.
  - reflexivity.
  - discriminate.
  - reflexivity.
Defined.

(** ** Deregistration and tokens *)

Lemma unregistered_token_rejected s request u :
  token request = Some u → ¬ registered s u → ∀ v, ¬ authenticated s request v.
Proof. intros Htok Hnot v (Hv & _ & Hreg). congruence. Qed.

Lemma cancel_removes_identity env request s u :
  authenticated s request u →
  ¬ registered (serve env (POST_Cancel_membership request) s) u
  ∧ user_contexts (serve env (POST_Cancel_membership request) s) !! u = None.
Proof.
  intros Hauth. simpl. rewrite (exec_cancel_membership _ _ _ _ Hauth). simpl.
  split; [|apply lookup_delete_eq].
  intros (user & Hin & Hname). simpl in Hin.
  apply list_elem_of_filter in Hin as [Hne _]. done.
Qed.

(** Only a registration under the name [u] can bring [u] into existence. *)
Lemma serve_keeps_unregistered env c s u :
  ¬ registered s u → ¬ registers u c → ¬ registered (serve env c s) u.
Proof.
  intros Hnot Hc.
  destruct (serve_transition env c s)
    as [c|user Hfresh|request v Hv|request file v T Hv Hext Hread Hmd];
    try done.
  - intros (x & Hin & Hname). simpl in Hin.
    apply elem_of_app in Hin as [Hin|Hin].
    + apply Hnot. by exists x.
    + apply list_elem_of_singleton in Hin as ->. by apply Hc.
  - intros (x & Hin & Hname). simpl in Hin.
    apply list_elem_of_filter in Hin as [_ Hin].
    apply Hnot. by exists x.
Qed.

Lemma run_keeps_unregistered tr s u :
  ¬ registered s u →
  Forall (λ ec : Collaborators * call, ¬ registers u ec.2) tr →
  ¬ registered (run tr s) u.
Proof.
  revert s. induction tr as [|[env c] tr IH]; intros s Hnot Hall; [done|].
  apply Forall_cons in Hall as [Hc Hall]. simpl.
  apply IH; [|done]. by apply serve_keeps_unregistered.
Qed.

(** C4: a resolved token always names an existing Identity; and once [u]
    is deregistered, as long as no registration under the name [u] is
    served, [u] stays without Identity and every endpoint behind the
    session resolver answers the old token with [Unauthenticated],
    leaving the stores untouched. *)
Theorem deregistered_token_is_rejected :
  (∀ env s request u,
     (exec env (get_current_user request) s).1.1 = Returned u →
     token request = Some u ∧ registered s u)
  ∧ (∀ env0 request0 s u tr env request,
       authenticated s request0 u →
       Forall (λ ec : Collaborators * call, ¬ registers u ec.2) tr →
       token request = Some u →
       let s' := run tr (serve env0 (POST_Cancel_membership request0) s) in
       ¬ registered s' u
       ∧ (∀ q_req, ∃ e, Unauthenticated e
                        ∧ exec env (query request q_req) s' = (Raised e, s', []))
       ∧ (∀ file, ∃ e, Unauthenticated e
                       ∧ exec env (upload request file) s' = (Raised e, s', []))
       ∧ (∃ e, Unauthenticated e
               ∧ exec env (cancel_membership request) s' = (Raised e, s', []))).
Proof.
  split.
  - intros env s request u Hret. unfold exec in Hret.
    destruct (get_current_user_cases request s)
      as [(v & (Htok & _ & Hreg) & Heq)|(e & _ & _ & Heq)];
      rewrite Heq in Hret; simpl in Hret; [|discriminate Hret].
    injection Hret as <-. done.
  - intros env0 request0 s u tr env request Hauth Hall Htok s'.
    assert (¬ registered s' u) as Hnot.
    { apply run_keeps_unregistered; [|done].
      by apply cancel_removes_identity. }
    pose proof (unregistered_token_rejected _ _ _ Htok Hnot) as Hno.
    split; [done|]. split; [|split].
    + intros q_req. by apply query_without_login.
    + intros file. by apply upload_without_login.
    + by apply cancel_without_login.
Qed.

Lemma deregistered_token_is_rejected_witness :
  let s' := run [(Sample.online, POST_login Sample.alice);
                 (Sample.online, POST_query Sample.as_alice Sample.who)]
              (serve Sample.online (POST_Cancel_membership Sample.as_alice)
                 Sample.tablet_state) in
  ¬ registered s' "alice"
  ∧ (∀ q_req, ∃ e, Unauthenticated e
                   ∧ exec Sample.online (query Sample.as_alice q_req) s'
                     = (Raised e, s', []))
  ∧ (∀ file, ∃ e, Unauthenticated e
                  ∧ exec Sample.online (upload Sample.as_alice file) s'
                    = (Raised e, s', []))
  ∧ (∃ e, Unauthenticated e
          ∧ exec Sample.online (cancel_membership Sample.as_alice) s'
            = (Raised e, s', [])).
Proof.
  apply (proj2 deregistered_token_is_rejected Sample.online Sample.as_alice
           Sample.tablet_state "alice"
           [(Sample.online, POST_login Sample.alice);
            (Sample.online, POST_query Sample.as_alice Sample.who)]
           Sample.online Sample.as_alice).
  - alice_is_authenticated.
  - repeat constructor; simpl; tauto.
  - reflexivity.
Defined.

(** ** Context only with identity *)

Lemma serve_context_has_identity env c s :
  context_has_identity s → context_has_identity (serve env c s).
Proof.
  intros Hinv.
  destruct (serve_transition env c s)
    as [c|user Hfresh|request v Hv|request file v T Hv Hext Hread Hmd];
    [done| | |].
  - intros u Hsome. destruct (Hinv u Hsome) as (x & Hin & Hname).
    exists x. split; [|done]. simpl. apply elem_of_app. by left.
  - intros u Hsome. simpl in Hsome.
    apply lookup_delete_is_Some in Hsome as [Hne Hsome].
    destruct (Hinv u Hsome) as (x & Hin & Hname).
    exists x. split; [|done]. simpl.
    apply list_elem_of_filter. split; [congruence | done].
  - intros u Hsome. simpl in Hsome.
    apply lookup_insert_is_Some in Hsome as [<-|[_ Hsome]].
    + by destruct Hv as (_ & _ & Hreg).
    + by apply Hinv.
Qed.

Lemma run_context_has_identity tr s :
  context_has_identity s → context_has_identity (run tr s).
Proof.
  revert s. induction tr as [|[env c] tr IH]; intros s Hinv; [done|].
  simpl. by apply IH, serve_context_has_identity.
Qed.

(** C5: in every state reached from the empty stores by serving requests
    one after the other, a Document Context for [u] exists only if an
    Identity for [u] exists; deregistering [u] removes the Identity and
    the context together, and when [u] registers again a query with
    token [u] fails with [NoContext]. *)
Theorem context_requires_identity :
  (∀ s u, reachable s → is_Some (user_contexts s !! u) → registered s u)
  ∧ (∀ env0 env1 env request0 request q_req s u password,
       authenticated s request0 u →
       token request = Some u →
       let s1 := serve env0 (POST_Cancel_membership request0) s in
       let s2 := serve env1 (POST_sign (User.mk u password)) s1 in
       ¬ registered s1 u
       ∧ user_contexts s1 !! u = None
       ∧ registered s2 u
       ∧ exec env (query request q_req) s2 = (Raised NoContext, s2, [])).
Proof.
  split.
  - intros s u [tr <-]. apply run_context_has_identity.
    intros v [x Hx]. simpl in Hx. by rewrite lookup_empty in Hx.
  - intros env0 env1 env request0 request q_req s u password Hauth Htok s1 s2.
    destruct (cancel_removes_identity env0 _ _ _ Hauth) as [Hnot Hnone].
    fold s1 in Hnot, Hnone.
    assert (s2 = with_users (users s1 ++ [User.mk u password]) s1) as Hs2.
    { unfold s2. simpl. by rewrite (sign_fresh env1 (User.mk u password) s1). }
    assert (registered s2 u) as Hreg.
    { rewrite Hs2. apply (registered_after_append s1 (User.mk u password)). }
    assert (authenticated s2 request u) as Hauth2.
    { split; [done|]. split; [|done]. by destruct Hauth as (_ & ? & _). }
    split; [done|]. split; [done|]. split; [done|].
    rewrite (exec_query _ _ _ _ _ Hauth2).
    replace (user_contexts s2) with (user_contexts s1) by by rewrite Hs2.
    by rewrite Hnone.
Qed.

Lemma context_requires_identity_witness :
  registered Sample.tablet_state "alice"
  ∧ exec Sample.online (query Sample.as_alice Sample.who)
      (serve Sample.online (POST_sign (User.mk "alice" "pw2"))
         (serve Sample.online (POST_Cancel_membership Sample.as_alice)
            Sample.tablet_state))
    = (Raised NoContext,
       serve Sample.online (POST_sign (User.mk "alice" "pw2"))
         (serve Sample.online (POST_Cancel_membership Sample.as_alice)
            Sample.tablet_state),
       []).
Proof.
  split.
  - apply (proj1 context_requires_identity Sample.tablet_state "alice").
    + exists [(Sample.online, POST_sign Sample.alice);
              (Sample.online, POST_upload Sample.as_alice Sample.scan_pdf)].
      reflexivity.
    + exists "# Tablet". reflexivity.
  - apply (proj2 context_requires_identity Sample.online Sample.online
             Sample.online Sample.as_alice Sample.as_alice Sample.who
             Sample.tablet_state "alice" "pw2").
    + alice_is_authenticated.
    + reflexivity.
Defined.

(** ** Query: forwarding the context *)

Lemma serve_keeps_context env c s u :
  ¬ replaces_context u env c s →
  user_contexts (serve env c s) !! u = user_contexts s !! u.
Proof.
  intros Hkeep.
  destruct (serve_transition env c s)
    as [c|user Hfresh|request v Hv|request file v T Hv Hext Hread Hmd];
    try done; simpl.
  - destruct (decide (v = u)) as [->|Hne].
    + destruct Hkeep. simpl. by apply authenticated_token in Hv.
    + by apply lookup_delete_ne.
  - destruct (decide (v = u)) as [->|Hne].
    + destruct Hkeep. simpl. split; [by apply authenticated_token in Hv|].
      rewrite (exec_upload _ _ _ _ _ Hv), Hext. simpl.
      destruct (UploadFile.read file) as [|b bs]; [done|].
      rewrite Hmd. by eexists.
    + by apply lookup_insert_ne.
Qed.

Lemma run_keeps_context tr s u :
  undisturbed u tr s →
  user_contexts (run tr s) !! u = user_contexts s !! u.
Proof.
  revert s. induction tr as [|[env c] tr IH]; intros s Hund; [done|].
  destruct Hund as [Hkeep Hund]. simpl.
  rewrite (IH _ Hund). by apply serve_keeps_context.
Qed.

Lemma query_nonempty_context env request q_req s u C :
  authenticated s request u →
  user_contexts s !! u = Some C →
  C ≠ "" →
  exec env (query request q_req) s
  = (Returned
       (query_body u (QueryRequest.query q_req)
          match requests_post env (RAG_SERVER_URL +:+ "/answer")
                  (answer_payload (QueryRequest.query q_req) C) 60 with
          | Value response_json => response_json
          | Caught str_e => apology str_e
          end),
     s,
     [Posted (RAG_SERVER_URL +:+ "/answer")
        (answer_payload (QueryRequest.query q_req) C) 60]).
Proof.
  intros Hauth Hctx Hne. rewrite (exec_query _ _ _ _ _ Hauth), Hctx.
  by destruct C.
Qed.

(** C6, as stated, fails: alice's stored Document Context is the empty
    string, and her query forwards nothing to the RAG server (it is
    refused with [NoContext]). *)
Lemma query_with_blank_context_forwards_nothing :
  user_contexts Sample.blank_state !! "alice" = Some ""
  ∧ authenticated Sample.blank_state Sample.as_alice "alice"
  ∧ (exec Sample.online (query Sample.as_alice Sample.who) Sample.blank_state).2
    = []
  ∧ ∀ body,
      (exec Sample.online (query Sample.as_alice Sample.who)
         Sample.blank_state).1.1 ≠ Returned body.
Proof.
  split; [reflexivity|]. split; [alice_is_authenticated|].
  split; [reflexivity|]. intros body. discriminate.
Qed.

(** C6 (amended): for an authenticated identity [u] whose stored Document
    Context [C] is not empty, [query] makes exactly one call, a POST of
    [{"query": q, "context": C}] to the answer endpoint of the RAG
    server, changes no store, and puts the server's reply unchanged into
    the ["result"] field; and [C] is the text installed by the most
    recent successful upload of [u]. *)
Theorem query_forwards_context env request q_req s u C :
  authenticated s request u →
  user_contexts s !! u = Some C →
  C ≠ "" →
  let q := QueryRequest.query q_req in
  let url := "http://localhost:8001/answer" in
  let payload := JDict [("query", JStr q); ("context", JStr C)] in
  (exec env (query request q_req) s).2 = [Posted url payload 60]
  ∧ (exec env (query request q_req) s).1.2 = s
  ∧ (∀ reply,
       requests_post env url payload 60 = Value reply →
       (exec env (query request q_req) s).1.1
       = Returned (JDict [("ok", JBool true); ("user", JStr u);
                          ("query", JStr q); ("result", reply)]))
  ∧ (∀ env0 request0 file s0 body s1 log tr,
       token request0 = Some u →
       exec env0 (upload request0 file) s0 = (Returned body, s1, log) →
       undisturbed u tr s1 →
       s = run tr s1 →
       to_markdown env0 (UploadFile.read file) = Value C).
Proof.
  intros Hauth Hctx Hne q url payload.
  rewrite (query_nonempty_context _ _ _ _ _ _ Hauth Hctx Hne). simpl.
  split; [reflexivity|]. split; [reflexivity|]. split.
  - intros reply Hreply.
    change (RAG_SERVER_URL +:+ "/answer") with url.
    change (answer_payload (QueryRequest.query q_req) C) with payload.
    by rewrite Hreply.
  - intros env0 request0 file s0 body s1 log tr Htok Hup Hund ->.
    destruct (upload_returned _ _ _ _ _ _ _ Hup)
      as (v & T & Hv & Hmd & _ & _ & Hinst & _).
    apply authenticated_token in Hv.
    assert (v = u) as -> by congruence.
    rewrite (run_keeps_context _ _ _ Hund), Hinst in Hctx.
    congruence.
Qed.

Lemma query_forwards_context_witness :
  (exec Sample.online (query Sample.as_alice Sample.who) Sample.tablet_state).2
  = [Posted "http://localhost:8001/answer"
       (JDict [("query", JStr "who is the author?");
               ("context", JStr "# Tablet")]) 60]
  ∧ (exec Sample.online (query Sample.as_alice Sample.who)
       Sample.tablet_state).1.1
    = Returned (JDict [("ok", JBool true); ("user", JStr "alice");
                       ("query", JStr "who is the author?");
                       ("result", JDict [("answer", JStr "Enheduanna")])]).
Proof.
  destruct (query_forwards_context Sample.online Sample.as_alice Sample.who
              Sample.tablet_state "alice" "# Tablet")
    as (Hsent & _ & Hreply & _).
  - alice_is_authenticated.
  - reflexivity.
  - discriminate.
  - split; [exact Hsent|]. apply Hreply. reflexivity.
Defined.

(** ** Query: degraded answer *)

(** C7, as stated, fails: alice has a Document Context (the empty
    string), the RAG server is unreachable, and her query fails with the
    400 of [NoContext]. *)
Lemma query_with_blank_context_offline_fails :
  user_contexts Sample.blank_state !! "alice" = Some ""
  ∧ authenticated Sample.blank_state Sample.as_alice "alice"
  ∧ (∀ url payload timeout,
       requests_post Sample.blank_offline url payload timeout
       = Caught "Connection refused")
  ∧ (exec Sample.blank_offline (query Sample.as_alice Sample.who)
       Sample.blank_state).1.1
    = Raised {| status_code := 400; detail := "먼저 고대 문서를 업로드해주세요." |}.
Proof.
  split; [reflexivity|]. split; [alice_is_authenticated|].
  split; reflexivity.
Qed.

(** C7 (amended): for an authenticated identity whose Document Context is
    not empty, when the call to the RAG server ends in a
    [RequestException] with text [str_e], [query] still returns: its
    ["result"] is [{"answer": apology}] where the apology sentence is
    followed by [str_e] in parentheses, and no store changes. *)
Theorem query_degraded_answer env request q_req s u C str_e :
  authenticated s request u →
  user_contexts s !! u = Some C →
  C ≠ "" →
  requests_post env "http://localhost:8001/answer"
    (JDict [("query", JStr (QueryRequest.query q_req)); ("context", JStr C)]) 60
  = Caught str_e →
  (exec env (query request q_req) s).1
  = (Returned
       (JDict [("ok", JBool true);
               ("user", JStr u);
               ("query", JStr (QueryRequest.query q_req));
               ("result",
                JDict [("answer",
                        JStr ("죄송합니다. 인공지능 모델 서버에 연결할 수 없습니다. ("
                              +:+ str_e +:+ ")"))])]),
     s).
Proof.
  intros Hauth Hctx Hne Hpost.
  rewrite (query_nonempty_context _ _ _ _ _ _ Hauth Hctx Hne). simpl.
  change (RAG_SERVER_URL +:+ "/answer") with "http://localhost:8001/answer".
  unfold answer_payload. by rewrite Hpost.
Qed.

Lemma query_degraded_answer_witness :
  (exec Sample.broken (query Sample.as_alice Sample.who) Sample.tablet_state).1
  = (Returned
       (JDict [("ok", JBool true);
               ("user", JStr "alice");
               ("query", JStr "who is the author?");
               ("result",
                JDict [("answer",
                        JStr ("죄송합니다. 인공지능 모델 서버에 연결할 수 없습니다. ("
                              +:+ "Connection refused" +:+ ")"))])]),
     Sample.tablet_state).
Proof.
  apply (query_degraded_answer Sample.broken Sample.as_alice Sample.who
           Sample.tablet_state "alice" "# Tablet" "Connection refused").
  - alice_is_authenticated.
  - reflexivity.
  - discriminate.
  - reflexivity.
Defined.

(** * Further properties of the endpoints *)

(** ** Login *)

Lemma login_match (user : User.t) (us : list User.t) :
  existsb (λ u, String.eqb (User.username u) (User.username user)
                && String.eqb (User.password u) (User.password user)) us = true
  ↔ user ∈ us.
Proof.
  rewrite existsb_exists. split.
  - intros (x & Hin & Heq). apply andb_true_iff in Heq as [Hn Hp].
    apply String.eqb_eq in Hn, Hp. apply list_elem_of_In in Hin.
    destruct x, user; simpl in *; by subst.
  - intros Hin. exists user. split; [by apply list_elem_of_In|].
    by rewrite !String.eqb_refl.
Qed.

Lemma login_iff_identity_aux env user s :
  exec env (login user) s
  = if bool_decide (user ∈ users s)
    then if Str.latin1 (User.username user)
         then (Returned (JDict [("message",
                                 JStr ("안녕하세요, " +:+ User.username user
                                       +:+ " 연구원님."))],
                         [set_cookie "username" (User.username user)]),
               s, [])
         else (Unhandled UnicodeEncodeError, s, [])
    else (Raised {| status_code := 401;
                    detail := "아이디 또는 비밀번호가 잘못되었습니다." |},
          s, []).
Proof.
  unfold exec, login, bind, get_users, raise, unhandled, ret; simpl.
  destruct (existsb _ _) eqn:Hex; simpl.
  - apply login_match in Hex. rewrite bool_decide_eq_true_2 by done.
    by destruct (Str.latin1 _).
  - rewrite bool_decide_eq_false_2; [done|].
    intros Hin. apply login_match in Hin. congruence.
Qed.

(** Case analysis on the three ways [login] can end. *)
Ltac login_cases :=
  rewrite login_iff_identity_aux;
  case_bool_decide; [destruct (Str.latin1 _) eqn:?|]; simpl.


(** ** Session resolver *)

(** [get_current_user] never changes a store and contacts nobody.  A
    missing or empty cookie is answered with the 401 "login required", a
    non-empty cookie naming no identity with the 401 "invalid user", and
    a non-empty cookie naming an identity is returned as it is. *)
Theorem get_current_user_outcome env request s :
  (exec env (get_current_user request) s).1.2 = s
  ∧ (exec env (get_current_user request) s).2 = []
  ∧ match token request with
    | Some (String c rest) =>
        (registered s (String c rest)
         ∧ (exec env (get_current_user request) s).1.1
           = Returned (String c rest))
        ∨ (¬ registered s (String c rest)
           ∧ (exec env (get_current_user request) s).1.1
             = Raised {| status_code := 401;
                         detail := "유효하지 않은 사용자입니다." |})
    | _ => (exec env (get_current_user request) s).1.1
           = Raised {| status_code := 401; detail := "로그인이 필요합니다." |}
    end.
Proof.
  unfold exec, get_current_user, token.
  destruct (Request.cookies request !! "username") as [[|c rest]|];
    try by repeat split.
  unfold bind, get_users, raise, ret; simpl.
  destruct (any_username (String c rest) (users s)) eqn:Hany; simpl.
  - repeat split. left. split; [|done]. by apply any_username_registered.
  - repeat split. right. split; [|done].
    intros Hreg. apply any_username_registered in Hreg. congruence.
Qed.

(** ** What a request can change *)

Lemma serve_respond env c s : serve env c s = (respond env c s).1.2.
Proof.
  destruct c; simpl; try reflexivity;
    by match goal with |- context [exec ?e ?h ?s] =>
         destruct (exec e h s) as [[[?|?|?] ?] ?] end.
Qed.

Lemma serve_query env request q_req s :
  serve env (POST_query request q_req) s = s.
Proof.
  simpl. destruct (authenticated_or_not s request) as [[u Hu]|Hno].
  - rewrite (exec_query _ _ _ _ _ Hu).
    by destruct (user_contexts s !! u) as [[|c rest]|].
  - destruct (query_without_login env request q_req s Hno) as (e & _ & Heq).
    by rewrite Heq.
Qed.

Lemma serve_upload_users env request file s :
  users (serve env (POST_upload request file) s) = users s.
Proof.
  simpl. destruct (authenticated_or_not s request) as [[u Hu]|Hno].
  - rewrite (exec_upload _ _ _ _ _ Hu).
    destruct (negb (accepted_extension file)); simpl; [done|].
    destruct (UploadFile.read file) as [|b bs]; [done|].
    by destruct (to_markdown env (b :: bs)).
  - destruct (upload_without_login env request file s Hno) as (e & _ & Heq).
    by rewrite Heq.
Qed.

(** [login], [logout] and [query] never change the stores, whatever they
    answer; [sign] never changes a context and [upload] never changes the
    identities. *)
Theorem read_only_endpoints env s user request file q_req :
  serve env (POST_login user) s = s
  ∧ serve env POST_logout s = s
  ∧ serve env (POST_query request q_req) s = s
  ∧ user_contexts (serve env (POST_sign user) s) = user_contexts s
  ∧ users (serve env (POST_upload request file) s) = users s.
Proof.
  split; [apply exec_login_state|]. split; [reflexivity|].
  split; [apply serve_query|]. split; [|apply serve_upload_users].
  simpl. rewrite exec_sign. by destruct (any_username _ _).
Qed.

(** A request answered with an error leaves both stores as they were. *)
Theorem failed_request_keeps_stores env c s e :
  (respond env c s).1.1 = Raised e → serve env c s = s.
Proof.
  intros Hfail.
  destruct c as [user|request|user| |request file|request q_req];
    simpl in Hfail |- *.
  - rewrite exec_sign in Hfail |- *.
    by destruct (any_username _ _).
  - destruct (authenticated_or_not s request) as [[u Hu]|Hno].
    + rewrite (exec_cancel_membership _ _ _ _ Hu) in Hfail. discriminate Hfail.
    + destruct (cancel_without_login env request s Hno) as (e' & _ & Heq).
      by rewrite Heq.
  - apply exec_login_state.
  - reflexivity.
  - destruct (authenticated_or_not s request) as [[u Hu]|Hno].
    + rewrite (exec_upload _ _ _ _ _ Hu) in Hfail |- *.
      destruct (negb (accepted_extension file)); simpl in *; [done|].
      destruct (UploadFile.read file) as [|b bs]; [done|].
      destruct (to_markdown env (b :: bs)); [discriminate Hfail | done].
    + destruct (upload_without_login env request file s Hno) as (e' & _ & Heq).
      by rewrite Heq.
  - apply serve_query.
Qed.

Lemma failed_request_keeps_stores_witness :
  serve Sample.online (POST_query Sample.as_alice Sample.who)
    Sample.registered_state
  = Sample.registered_state.
Proof.
  apply (failed_request_keeps_stores Sample.online
           (POST_query Sample.as_alice Sample.who) Sample.registered_state
           NoContext).
  reflexivity.
Defined.

(** ** Status codes *)

(** Complete description of the answer to an upload, by status. *)
Lemma upload_status env request file s :
  status (exec env (upload request file) s).1.1 = 200
  ∨ status (exec env (upload request file) s).1.1 = 400
  ∨ status (exec env (upload request file) s).1.1 = 401
    ∧ (∀ u, ¬ authenticated s request u)
  ∨ status (exec env (upload request file) s).1.1 = 500
    ∧ ∃ str_e, to_markdown env (UploadFile.read file) = Caught str_e.
Proof.
  destruct (authenticated_or_not s request) as [[u Hu]|Hno].
  - rewrite (exec_upload _ _ _ _ _ Hu).
    destruct (negb (accepted_extension file)); simpl; [auto|].
    destruct (UploadFile.read file) as [|b bs]; simpl; [auto|].
    destruct (to_markdown env (b :: bs)) as [T|str_e]; simpl; [auto|].
    right. right. right. eauto.
  - destruct (upload_without_login env request file s Hno) as (e & He & Heq).
    rewrite Heq. right. right. left. split; [|done].
    by destruct He as [->| ->].
Qed.

Lemma plain_status (r : outcome json * state * list contact) :
  status (plain r).1.1 = status r.1.1.
Proof. by destruct r as [[[?|?|?] ?] ?]. Qed.





Lemma plain_log (r : outcome json * state * list contact) : (plain r).2 = r.2.
Proof. by destruct r as [[[?|?|?] ?] ?]. Qed.

(** Status 401 is produced exactly in two situations: a [login] whose
    pair (username, password) is no registered identity, and a request to
    an endpoint behind the session resolver whose cookie is missing,
    empty, or names no identity. *)
Theorem status_401_iff env c s :
  status (respond env c s).1.1 = 401
  ↔ (∃ user, c = POST_login user ∧ user ∉ users s)
    ∨ (guarded c = true
       ∧ ∀ u, ¬ (presented c = Some u ∧ u ≠ "" ∧ registered s u)).
Proof.
  destruct c as [user|request|user| |request file|request q_req]; simpl.
  - rewrite plain_status, exec_sign. split.
    + by destruct (any_username _ _).
    + intros [(x & Hx & _)|[Hg _]]; discriminate.
  - destruct (authenticated_or_not s request) as [[u Hu]|Hno].
    + rewrite (exec_cancel_membership _ _ _ _ Hu). simpl. split; [done|].
      intros [(x & Hx & _)|[_ Hno]]; [discriminate|]. by destruct (Hno u).
    + destruct (cancel_without_login env request s Hno) as (e & He & Heq).
      rewrite Heq. split; [by right|]. intros _. by destruct He as [->| ->].
  - rewrite login_iff_identity_aux.
    case_bool_decide as Hin; [destruct (Str.latin1 _)|]; simpl.
    + split; [done|].
      intros [(x & Hx & Hnot)|[Hg _]]; [|discriminate].
      injection Hx as ->. done.
    + split; [done|].
      intros [(x & Hx & Hnot)|[Hg _]]; [|discriminate].
      injection Hx as ->. done.
    + split; [|done]. intros _. left. by exists user.
  - split; [done|]. intros [(x & Hx & _)|[Hg _]]; discriminate.
  - rewrite plain_status.
    destruct (upload_status env request file s)
      as [H|[H|[[H Hno]|[H _]]]]; rewrite H.
    1, 2, 4: split; [done|];
      intros [(x & Hx & _)|[_ Hno]]; [discriminate|];
      destruct (authenticated_or_not s request) as [[u Hu]|Hno'];
      [by destruct (Hno u)|];
      destruct (upload_without_login env request file s Hno')
        as (e & He & Heq);
      rewrite Heq in H; by destruct He as [->| ->].
    split; [by right | done].
  - rewrite plain_status.
    destruct (authenticated_or_not s request) as [[u Hu]|Hno].
    + rewrite (exec_query _ _ _ _ _ Hu). split.
      * by destruct (user_contexts s !! u) as [[|ch rest]|].
      * intros [(x & Hx & _)|[_ Hno]]; [discriminate|]. by destruct (Hno u).
    + destruct (query_without_login env request q_req s Hno) as (e & He & Heq).
      rewrite Heq. split; [by right|]. intros _. by destruct He as [->| ->].
Qed.

(** ** Contacts with the collaborators *)

(** A request contacts at most one collaborator, at most once.  The
    extraction library is run only by [upload], only for an authenticated
    caller, an accepted file name and a non-empty file, and on exactly
    the uploaded bytes.  The RAG server is called only by [query], only
    for an authenticated caller with a non-empty stored context, with one
    POST of the question and that context to the answer endpoint. *)
Theorem contacts_discipline env c s :
  (respond env c s).2 = []
  ∨ (∃ request file u,
       c = POST_upload request file
       ∧ authenticated s request u
       ∧ accepted_extension file = true
       ∧ UploadFile.read file ≠ []
       ∧ (respond env c s).2 = [Parsed (UploadFile.read file)])
  ∨ (∃ request q_req u C,
       c = POST_query request q_req
       ∧ authenticated s request u
       ∧ user_contexts s !! u = Some C
       ∧ C ≠ ""
       ∧ (respond env c s).2
         = [Posted "http://localhost:8001/answer"
              (JDict [("query", JStr (QueryRequest.query q_req));
                      ("context", JStr C)]) 60]).
Proof.
  destruct c as [user|request|user| |request file|request q_req]; simpl.
  - left. rewrite plain_log, exec_sign. by destruct (any_username _ _).
  - left. destruct (authenticated_or_not s request) as [[u Hu]|Hno].
    + by rewrite (exec_cancel_membership _ _ _ _ Hu).
    + destruct (cancel_without_login env request s Hno) as (e & _ & Heq).
      by rewrite Heq.
  - left. by login_cases.
  - by left.
  - rewrite plain_log.
    destruct (authenticated_or_not s request) as [[u Hu]|Hno].
    + rewrite (exec_upload _ _ _ _ _ Hu).
      destruct (accepted_extension file) eqn:Hext; simpl; [|by left].
      destruct (UploadFile.read file) as [|b bs] eqn:Hread; simpl; [by left|].
      right. left. exists request, file, u. rewrite Hread.
      split; [done|]. split; [done|]. split; [done|]. split; [done|].
      by destruct (to_markdown env (b :: bs)).
    + destruct (upload_without_login env request file s Hno) as (e & _ & Heq).
      rewrite Heq. by left.
  - rewrite plain_log.
    destruct (authenticated_or_not s request) as [[u Hu]|Hno].
    + rewrite (exec_query _ _ _ _ _ Hu).
      destruct (user_contexts s !! u) as [[|ch rest]|] eqn:Hctx; simpl;
        [by left| |by left].
      right. right. exists request, q_req, u, (String ch rest).
      by repeat (split; [done|]).
    + destruct (query_without_login env request q_req s Hno) as (e & _ & Heq).
      rewrite Heq. by left.
Qed.

(** ** Isolation between users *)

(** A request that does not present the token [v] cannot change the
    Document Context of [v] and cannot remove the Identity of [v]. *)
Theorem untouched_without_token env c s v :
  presented c ≠ Some v →
  user_contexts (serve env c s) !! v = user_contexts s !! v
  ∧ (registered s v → registered (serve env c s) v).
Proof.
  intros Hpres.
  destruct (serve_transition env c s)
    as [c|user Hfresh|request u Hu|request file u T Hu Hext Hread Hmd];
    simpl in *.
  - done.
  - split; [done|]. intros (x & Hin & Hname). exists x. split; [|done].
    simpl. apply elem_of_app. by left.
  - assert (u ≠ v) as Hne.
    { intros ->. by apply authenticated_token in Hu. }
    split; [by apply lookup_delete_ne|].
    intros (x & Hin & Hname). exists x. split; [|done]. simpl.
    apply list_elem_of_filter. split; [congruence | done].
  - assert (u ≠ v) as Hne.
    { intros ->. by apply authenticated_token in Hu. }
    split; [by apply lookup_insert_ne | done].
Qed.

Lemma untouched_without_token_witness :
  user_contexts (serve Sample.online (POST_Cancel_membership Sample2.as_bob)
                   Sample2.two_users) !! "alice"
  = user_contexts Sample2.two_users !! "alice"
  ∧ (registered Sample2.two_users "alice" →
     registered (serve Sample.online (POST_Cancel_membership Sample2.as_bob)
                   Sample2.two_users) "alice").
Proof.
  apply (untouched_without_token Sample.online
           (POST_Cancel_membership Sample2.as_bob) Sample2.two_users "alice").
  discriminate.
Defined.

(** ** Unique user names *)

Lemma serve_unique_usernames env c s :
  NoDup (User.username <$> users s) →
  NoDup (User.username <$> users (serve env c s)).
Proof.
  intros Hnd.
  destruct (serve_transition env c s)
    as [c|user Hfresh|request u Hu|request file u T Hu Hext Hread Hmd];
    simpl; try done.
  - rewrite fmap_app. apply NoDup_app. split; [done|].
    split; [|apply NoDup_singleton].
    intros name Hin Hin'. simpl in Hin'.
    apply list_elem_of_singleton in Hin' as ->.
    apply list_elem_of_fmap in Hin as (x & Hname & Hin).
    apply Hfresh. by exists x.
  - eapply sublist_NoDup; [exact Hnd|].
    apply fmap_sublist, sublist_filter.
Qed.

(** In every reachable state the registered user names are pairwise
    distinct: there is at most one Identity per user name. *)
Theorem reachable_unique_usernames s :
  reachable s → NoDup (User.username <$> users s).
Proof.
  intros [tr <-].
  assert (∀ s0, NoDup (User.username <$> users s0) →
                NoDup (User.username <$> users (run tr s0))) as Hrun.
  { induction tr as [|[env c] tr IH]; intros s0 Hnd; [done|].
    simpl. by apply IH, serve_unique_usernames. }
  apply Hrun. simpl. constructor.
Qed.

Lemma reachable_unique_usernames_witness :
  NoDup (User.username <$> users Sample2.two_users).
Proof.
  apply (reachable_unique_usernames Sample2.two_users).
  exists [(Sample.online, POST_sign Sample.alice);
          (Sample.online, POST_sign Sample2.bob);
          (Sample.online, POST_upload Sample.as_alice Sample.scan_pdf)].
  reflexivity.
Defined.

(** ** File name check *)

Lemma lower_app (p e : string) :
  Str.lower (p +:+ e) = Str.lower p +:+ Str.lower e.
Proof. induction p as [|c p IH]; simpl; [done | by rewrite IH]. Qed.

Lemma lower_split (name q t : string) :
  Str.lower name = q +:+ t →
  ∃ p e, name = p +:+ e ∧ Str.lower p = q ∧ Str.lower e = t.
Proof.
  revert name. induction q as [|c q IH]; intros name Hname.
  - by exists "", name.
  - destruct name as [|d name]; [discriminate Hname|].
    simpl in Hname. injection Hname as Hc Hrest.
    destruct (IH _ Hrest) as (p & e & -> & Hp & He).
    exists (String d p), e. simpl. by rewrite Hc, Hp.
Qed.

Lemma lower_char_dot (x : ascii) :
  Str.lower_char x = "."%char ↔ x = "."%char.
Proof.
  split; [|by intros ->].
  destruct x as [[] [] [] [] [] [] [] []]; vm_compute; intros H;
    first [discriminate H | reflexivity].
Qed.

Lemma lower_char_p (x : ascii) :
  Str.lower_char x = "p"%char ↔ x = "p"%char ∨ x = "P"%char.
Proof.
  split; [|by intros [->| ->]].
  destruct x as [[] [] [] [] [] [] [] []]; vm_compute; intros H;
    first [discriminate H | by left | by right].
Qed.

Lemma lower_char_d (x : ascii) :
  Str.lower_char x = "d"%char ↔ x = "d"%char ∨ x = "D"%char.
Proof.
  split; [|by intros [->| ->]].
  destruct x as [[] [] [] [] [] [] [] []]; vm_compute; intros H;
    first [discriminate H | by left | by right].
Qed.

Lemma lower_char_f (x : ascii) :
  Str.lower_char x = "f"%char ↔ x = "f"%char ∨ x = "F"%char.
Proof.
  split; [|by intros [->| ->]].
  destruct x as [[] [] [] [] [] [] [] []]; vm_compute; intros H;
    first [discriminate H | by left | by right].
Qed.

Lemma lower_is_dot_pdf (e : string) :
  Str.lower e = ".pdf"
  ↔ ∃ a b c, e = String "." (String a (String b (String c "")))
             ∧ (a = "p" ∨ a = "P")%char
             ∧ (b = "d" ∨ b = "D")%char
             ∧ (c = "f" ∨ c = "F")%char.
Proof.
  split.
  - destruct e as [|x0 [|a [|b [|c [|? ?]]]]]; try discriminate.
    cbn [Str.lower]. intros H. injection H as H0 Ha Hb Hc.
    apply lower_char_dot in H0 as ->.
    apply lower_char_p in Ha. apply lower_char_d in Hb.
    apply lower_char_f in Hc. by exists a, b, c.
  - intros (a & b & c & -> & Ha & Hb & Hc). cbn [Str.lower].
    apply lower_char_p in Ha. apply lower_char_d in Hb.
    apply lower_char_f in Hc. by rewrite Ha, Hb, Hc.
Qed.

(** The extension check is case-insensitive: a file is accepted exactly
    when it has a name that ends with a dot followed by [p] or [P], [d]
    or [D], and [f] or [F]; a file without name is refused. *)
Theorem accepted_extension_iff file :
  accepted_extension file = true
  ↔ ∃ stem a b c,
      UploadFile.filename file
      = Some (stem +:+ String "." (String a (String b (String c ""))))
      ∧ (a = "p" ∨ a = "P")%char
      ∧ (b = "d" ∨ b = "D")%char
      ∧ (c = "f" ∨ c = "F")%char.
Proof.
  unfold accepted_extension. split.
  - destruct (UploadFile.filename file) as [name|]; simpl; [|discriminate].
    intros [q Hq]%endswith_inv.
    destruct (lower_split _ _ _ Hq) as (stem & e & -> & _ & He).
    apply lower_is_dot_pdf in He as (a & b & c & -> & Habc).
    by exists stem, a, b, c.
  - intros (stem & a & b & c & -> & Habc). simpl.
    rewrite lower_app.
    replace (Str.lower (String "." (String a (String b (String c "")))))
      with ".pdf"; [apply endswith_app|].
    symmetry. apply lower_is_dot_pdf. by exists a, b, c.
Qed.

Example accepted_mixed_case :
  accepted_extension (UploadFile.mk (Some "a.PDF") []) = true
  ∧ accepted_extension (UploadFile.mk (Some "문서.Pdf") []) = true
  ∧ accepted_extension (UploadFile.mk (Some "a.pdf.txt") []) = false
  ∧ accepted_extension (UploadFile.mk None []) = false.
Proof. by vm_compute. Qed.

(** ** Upload: which error *)

(** Splits a table of equivalences between outcomes and conditions and
    closes the rows that are contradictory or immediate. *)
Ltac settle_outcomes :=
  repeat first [split | intro];
  repeat match goal with
         | H : _ ∧ _ |- _ => destruct H
         | H : ∃ _, _ |- _ => destruct H
         end;
  try done; try discriminate.

(** For an authenticated caller the checks of [upload] are made in a
    fixed order: extension, then emptiness, then extraction.  Each
    outcome is characterised by the first check that fails. *)
Theorem upload_outcome_iff env request file s u :
  authenticated s request u →
  ((exec env (upload request file) s).1.1 = Raised UnsupportedFormat
   ↔ accepted_extension file = false)
  ∧ ((exec env (upload request file) s).1.1 = Raised EmptyInput
     ↔ accepted_extension file = true ∧ UploadFile.read file = [])
  ∧ (∀ str_e,
       (exec env (upload request file) s).1.1 = Raised (ExtractionError str_e)
       ↔ accepted_extension file = true ∧ UploadFile.read file ≠ []
         ∧ to_markdown env (UploadFile.read file) = Caught str_e)
  ∧ ((∃ body, (exec env (upload request file) s).1.1 = Returned body)
     ↔ accepted_extension file = true ∧ UploadFile.read file ≠ []
       ∧ ∃ T, to_markdown env (UploadFile.read file) = Value T).
Proof.
  intros Hauth. rewrite (exec_upload _ _ _ _ _ Hauth).
  destruct (accepted_extension file); simpl; [|by settle_outcomes].
  destruct (UploadFile.read file) as [|b bs]; simpl; [by settle_outcomes|].
  destruct (to_markdown env (b :: bs)) as [T|d]; simpl; settle_outcomes.
  - eauto.
  - eauto.
  - match goal with H : Raised _ = Raised _ |- _ => injection H as H end.
    by simplify_eq.
  - match goal with H : Caught _ = Caught _ |- _ => by injection H as -> end.
Qed.

Lemma upload_outcome_iff_witness :
  (exec Sample.online (upload Sample.as_alice Sample2.empty_pdf)
     Sample.registered_state).1.1 = Raised EmptyInput.
Proof.
  apply (proj1 (proj2 (upload_outcome_iff Sample.online Sample.as_alice
                         Sample2.empty_pdf Sample.registered_state "alice"
                         ltac:(alice_is_authenticated)))).
  split; reflexivity.
Defined.

(** ** Registration, login and the token *)

Lemma serve_sign_fresh env user s :
  ¬ registered s (User.username user) →
  serve env (POST_sign user) s = with_users (users s ++ [user]) s.
Proof. intros Hfresh. simpl. by rewrite (sign_fresh _ _ _ Hfresh). Qed.








(** ** Registration followed by deregistration *)

Lemma reachable_context_has_identity s : reachable s → context_has_identity s.
Proof.
  intros [tr <-]. apply run_context_has_identity.
  intros v [x Hx]. simpl in Hx. by rewrite lookup_empty in Hx.
Qed.

Lemma unregistered_no_context s u :
  reachable s → ¬ registered s u → user_contexts s !! u = None.
Proof.
  intros Hreach Hnot. apply eq_None_not_Some. intros Hsome.
  by apply Hnot, reachable_context_has_identity.
Qed.

Lemma filter_keeps_all {A} (P : A → Prop) `{∀ x, Decision (P x)} (l : list A) :
  (∀ x, x ∈ l → P x) → filter P l = l.
Proof.
  induction l as [|a l IH]; intros Hall; [done|].
  rewrite filter_cons_True; [|apply Hall; left].
  f_equal. apply IH. intros x Hx. apply Hall. by right.
Qed.

(** In a reachable state, registering a fresh non-empty user name and
    deregistering it right away gives back exactly the state before. *)
Theorem sign_then_cancel_restores env1 env2 user request s :
  reachable s →
  ¬ registered s (User.username user) →
  User.username user ≠ "" →
  token request = Some (User.username user) →
  serve env2 (POST_Cancel_membership request) (serve env1 (POST_sign user) s) = s.
Proof.
  intros Hreach Hfresh Hne Htok.
  rewrite (serve_sign_fresh _ _ _ Hfresh). simpl.
  rewrite (exec_cancel_membership _ _ _ (User.username user)); simpl.
  - rewrite filter_app, filter_cons_False, filter_nil, app_nil_r by naive_solver.
    rewrite filter_keeps_all.
    + rewrite delete_id; [by destruct s|].
      by apply unregistered_no_context.
    + intros x Hin Hname. apply Hfresh. by exists x.
  - split; [done|]. split; [done|]. apply registered_after_append.
Qed.

Lemma sign_then_cancel_restores_witness :
  serve Sample.online (POST_Cancel_membership Sample2.as_bob)
    (serve Sample.online (POST_sign Sample2.bob) Sample.tablet_state)
  = Sample.tablet_state.
Proof.
  apply (sign_then_cancel_restores Sample.online Sample.online Sample2.bob
           Sample2.as_bob Sample.tablet_state).
  - exists [(Sample.online, POST_sign Sample.alice);
            (Sample.online, POST_upload Sample.as_alice Sample.scan_pdf)].
    reflexivity.
  - intros (x & Hin & Hname). vm_compute in Hin.
    apply list_elem_of_singleton in Hin. subst x. discriminate Hname.
  - discriminate.
  - reflexivity.
Defined.

(** In a reachable state, a user who has just registered under a fresh
    non-empty name has no Document Context: the first query is answered
    with [NoContext] and nothing is sent to the RAG server. *)
Theorem fresh_user_has_no_context env1 env user request q_req s :
  reachable s →
  ¬ registered s (User.username user) →
  User.username user ≠ "" →
  token request = Some (User.username user) →
  exec env (query request q_req) (serve env1 (POST_sign user) s)
  = (Raised NoContext, serve env1 (POST_sign user) s, []).
Proof.
  intros Hreach Hfresh Hne Htok.
  rewrite (serve_sign_fresh _ _ _ Hfresh).
  rewrite (exec_query _ _ _ _ (User.username user)); simpl.
  - by rewrite (unregistered_no_context _ _ Hreach Hfresh).
  - split; [done|]. split; [done|]. apply registered_after_append.
Qed.

Lemma fresh_user_has_no_context_witness :
  exec Sample.online (query Sample2.as_bob Sample.who)
    (serve Sample.online (POST_sign Sample2.bob) Sample.tablet_state)
  = (Raised NoContext,
     serve Sample.online (POST_sign Sample2.bob) Sample.tablet_state, []).
Proof.
  apply (fresh_user_has_no_context Sample.online Sample.online Sample2.bob
           Sample2.as_bob Sample.who Sample.tablet_state).
  - exists [(Sample.online, POST_sign Sample.alice);
            (Sample.online, POST_upload Sample.as_alice Sample.scan_pdf)].
    reflexivity.
  - intros (x & Hin & Hname). vm_compute in Hin.
    apply list_elem_of_singleton in Hin. subst x. discriminate Hname.
  - discriminate.
  - reflexivity.
Defined.

(** ** The empty user name *)

Lemma serve_keeps_empty_name env c s :
  registered s "" → registered (serve env c s) "".
Proof.
  intros (x & Hin & Hname).
  destruct (serve_transition env c s)
    as [c|user Hfresh|request u Hu|request file u T Hu Hext Hread Hmd];
    exists x; (split; [|done]); simpl; try done.
  - apply elem_of_app. by left.
  - apply list_elem_of_filter. split; [|done].
    destruct Hu as (_ & Hne & _). congruence.
Qed.

(** [sign] accepts the empty user name, but the session resolver treats
    an empty cookie as no cookie.  So an identity registered under the
    empty name can never be resolved, hence never deregistered: it stays
    registered whatever requests are served. *)
Theorem empty_name_is_permanent s tr env request :
  registered s "" →
  registered (run tr s) ""
  ∧ (exec env (get_current_user request) (run tr s)).1.1 ≠ Returned "".
Proof.
  intros Hreg. split.
  - revert s Hreg. induction tr as [|[env' c] tr IH]; intros s Hreg; [done|].
    simpl. by apply IH, serve_keeps_empty_name.
  - unfold exec.
    destruct (get_current_user_cases request (run tr s))
      as [(u & (_ & Hne & _) & ->)|(e & _ & _ & ->)]; simpl; congruence.
Qed.

Lemma empty_name_is_permanent_witness :
  registered
    (run [(Sample.online, POST_Cancel_membership (Request.mk {[ "username" := "" ]}))]
       Sample2.nameless_state) ""
  ∧ (exec Sample.online (get_current_user (Request.mk {[ "username" := "" ]}))
       (run [(Sample.online,
              POST_Cancel_membership (Request.mk {[ "username" := "" ]}))]
          Sample2.nameless_state)).1.1
    ≠ Returned "".
Proof.
  apply (empty_name_is_permanent Sample2.nameless_state
           [(Sample.online,
             POST_Cancel_membership (Request.mk {[ "username" := "" ]}))]
           Sample.online (Request.mk {[ "username" := "" ]})).
  exists Sample2.nameless. split; [vm_compute; left | reflexivity].
Defined.

(** In every reachable state no Document Context is stored under the
    empty user name. *)
Theorem reachable_no_context_for_empty_name s :
  reachable s → user_contexts s !! "" = None.
Proof.
  intros [tr <-].
  assert (∀ s0, user_contexts s0 !! "" = None →
                user_contexts (run tr s0) !! "" = None) as Hrun.
  { induction tr as [|[env c] tr IH]; intros s0 Hnone; [done|].
    simpl. apply IH.
    destruct (serve_transition env c s0)
      as [c|user Hfresh|request u Hu|request file u T Hu Hext Hread Hmd];
      simpl; try done.
    - by rewrite lookup_delete_None; right.
    - destruct Hu as (_ & Hne & _). by rewrite lookup_insert_ne. }
  apply Hrun. apply lookup_empty.
Qed.

Lemma reachable_no_context_for_empty_name_witness :
  user_contexts Sample2.two_users !! "" = None.
Proof.
  apply (reachable_no_context_for_empty_name Sample2.two_users).
  exists [(Sample.online, POST_sign Sample.alice);
          (Sample.online, POST_sign Sample2.bob);
          (Sample.online, POST_upload Sample.as_alice Sample.scan_pdf)].
  reflexivity.
Defined.

(** ** Successive uploads *)

Lemma upload_returned_state env request file s body :
  (exec env (upload request file) s).1.1 = Returned body →
  ∃ u T, authenticated s request u
         ∧ serve env (POST_upload request file) s
           = with_contexts (<[u := T]> (user_contexts s)) s.
Proof.
  intros Hret. simpl.
  destruct (exec env (upload request file) s) as [[o s'] log] eqn:Hexec.
  simpl in Hret. subst o.
  destruct (upload_returned _ _ _ _ _ _ _ Hexec)
    as (u & T & Hu & _ & Husers & Hctx & _).
  exists u, T. split; [done|]. simpl.
  destruct s'. simpl in *. by subst.
Qed.

(** The last upload wins: when two uploads with the same cookie both
    succeed, serving them one after the other leaves the stores exactly
    as the second alone would; nothing of the first text is kept. *)
Theorem last_upload_wins env1 env2 request file1 file2 s body1 body2 :
  (exec env1 (upload request file1) s).1.1 = Returned body1 →
  (exec env2 (upload request file2) s).1.1 = Returned body2 →
  serve env2 (POST_upload request file2) (serve env1 (POST_upload request file1) s)
  = serve env2 (POST_upload request file2) s.
Proof.
  intros H1 H2.
  destruct (upload_returned_state _ _ _ _ _ H1) as (u & T1 & Hu & ->).
  assert (authenticated (with_contexts (<[u := T1]> (user_contexts s)) s)
            request u) as Hu' by done.
  simpl. rewrite (exec_upload _ _ _ _ _ Hu) in H2 |- *.
  rewrite (exec_upload _ _ _ _ _ Hu').
  destruct (negb (accepted_extension file2)); simpl in *; [done|].
  destruct (UploadFile.read file2) as [|b bs]; [done|].
  destruct (to_markdown env2 (b :: bs)) as [T2|d]; [|done].
  simpl. unfold with_contexts. simpl. by rewrite insert_insert_eq.
Qed.

Lemma last_upload_wins_witness :
  serve Sample2.verbose (POST_upload Sample.as_alice Sample2.second_pdf)
    (serve Sample.online (POST_upload Sample.as_alice Sample.scan_pdf)
       Sample.registered_state)
  = serve Sample2.verbose (POST_upload Sample.as_alice Sample2.second_pdf)
      Sample.registered_state.
Proof.
  apply (last_upload_wins Sample.online Sample2.verbose Sample.as_alice
           Sample.scan_pdf Sample2.second_pdf Sample.registered_state
           (upload_body "alice" "# Tablet")
           (upload_body "alice" Sample2.accents));
    reflexivity.
Defined.

(** ** The preview *)

(** The body of a successful upload reports under ["text_length"] the
    number of characters of the extracted text [T], and under
    ["preview"] a prefix of [T] made of [min 200 (len T)] characters,
    followed by the marker ["..."]; the marker is appended even when the
    whole of [T] is shown.  When [T] is the text made of the characters
    [cs], the prefix is the text made of the first 200 of them. *)
Theorem preview_is_marked_prefix env request file s body s' log :
  exec env (upload request file) s = (Returned body, s', log) →
  ∃ T p,
    to_markdown env (UploadFile.read file) = Value T
    ∧ field "text_length" body = Some (JInt (Z.of_nat (Str.chars T)))
    ∧ field "preview" body = Some (JStr (p +:+ "..."))
    ∧ String.prefix p T = true
    ∧ Str.chars p = (200 `min` Str.chars T)%nat
    ∧ ((Str.chars T ≤ 200)%nat → p = T)
    ∧ ∀ cs, T = Str.utf8 cs →
            Str.chars T = length cs ∧ p = Str.utf8 (take 200 cs).
Proof.
  intros Hexec.
  destruct (upload_returned _ _ _ _ _ _ _ Hexec)
    as (u & T & _ & Hmd & _ & _ & _ & ->).
  exists T, (Str.slice_to 200 T).
  split; [done|]. split; [done|]. split; [done|].
  split; [apply slice_to_prefix|].
  split; [apply chars_slice_to|]. split; [apply slice_to_all|].
  intros cs ->. split; [|apply slice_to_utf8].
  apply Nat2Z.inj. apply len_utf8.
Qed.

Example preview_of_accents :
  Str.chars Sample2.accents = 250%nat
  ∧ String.length Sample2.accents = 500%nat
  ∧ Str.chars (Str.slice_to 200 Sample2.accents) = 200%nat.
Proof. by vm_compute. Qed.

Lemma preview_is_marked_prefix_witness :
  ∃ T p,
    to_markdown Sample2.verbose (UploadFile.read Sample2.second_pdf) = Value T
    ∧ field "text_length" (upload_body "alice" Sample2.accents)
      = Some (JInt (Z.of_nat (Str.chars T)))
    ∧ field "preview" (upload_body "alice" Sample2.accents)
      = Some (JStr (p +:+ "..."))
    ∧ String.prefix p T = true
    ∧ Str.chars p = (200 `min` Str.chars T)%nat
    ∧ ((Str.chars T ≤ 200)%nat → p = T)
    ∧ ∀ cs, T = Str.utf8 cs →
            Str.chars T = length cs ∧ p = Str.utf8 (take 200 cs).
Proof.
  apply (preview_is_marked_prefix Sample2.verbose Sample.as_alice
           Sample2.second_pdf Sample.registered_state
           (upload_body "alice" Sample2.accents)
           (with_contexts
              (<["alice" := Sample2.accents]>
                 (user_contexts Sample.registered_state))
              Sample.registered_state)
           [Parsed (UploadFile.read Sample2.second_pdf)]).
  reflexivity.
Defined.

(** ** Pre-indexing helper *)

(** [upload_to_rag] makes one POST of the text and the chunk size to the
    upload endpoint of the RAG server, with timeout 10.  When the call
    ends in a [RequestException] the function does not raise: it returns
    the fixed dict [{"error": ...}], which does not carry the exception
    text; that text only goes to the printed line. *)
Theorem upload_to_rag_swallows_failure env full_text chunk_size str_e :
  requests_post env "http://localhost:8001/upload"
    (JDict [("full_text", JStr full_text); ("chunk_size", JInt chunk_size)]) 10
  = Caught str_e →
  perform env (upload_to_rag full_text chunk_size)
  = ((JDict [("error", JStr "RAG 서버 연결 실패")],
      ["RAG Server Error: " +:+ str_e]),
     [Posted "http://localhost:8001/upload"
        (JDict [("full_text", JStr full_text); ("chunk_size", JInt chunk_size)])
        10]).
Proof.
  intros Hpost. unfold upload_to_rag. simpl.
  change (RAG_SERVER_URL +:+ "/upload") with "http://localhost:8001/upload".
  by rewrite Hpost.
Qed.

Lemma upload_to_rag_swallows_failure_witness :
  perform Sample.broken (upload_to_rag "# Tablet" default_chunk_size)
  = ((JDict [("error", JStr "RAG 서버 연결 실패")],
      ["RAG Server Error: " +:+ "Connection refused"]),
     [Posted "http://localhost:8001/upload"
        (JDict [("full_text", JStr "# Tablet");
                ("chunk_size", JInt default_chunk_size)])
        10]).
Proof.
  apply (upload_to_rag_swallows_failure Sample.broken "# Tablet"
           default_chunk_size "Connection refused").
  reflexivity.
Defined.
